(** * LeelaZeroNet training: the network's forward pass, the training step
      and the training script's numeric glue

    Shallow embedding of [src/models/tf_net.py] and [src/models/train.py].

    Python floats are idealised as rationals ([Q]): rounding is not modelled,
    comparisons and the arithmetic laws are the exact ones.  The range of
    the floats is kept where the schedule can leave it (module [Py]).
    Python ints are [Z].  Exceptions are the [Raise] branch of [result].

    The two methods of [LeelaZeroNet] are written once, as programs over the
    requests they make of Keras and of the imported modules ([event]);
    [run] executes such a program against a [runtime] (the layer and loss
    implementations, the optimizer) and a [world] (precision policy,
    trainable variables, optimizer state), and returns the log of requests
    together with the outcome.  A scalar under the gradient tape carries its
    derivative along each trainable variable, so [tape.gradient] is a
    projection and the gradient of a weighted sum is computed, not assumed. *)

From Stdlib Require Import QArith Qabs Qpower Qround Qminmax ZArith Lia Lqa.
From stdpp Require Import gmap strings list pretty.

Set Warnings "-register-all".

Open Scope Q_scope.

(** ** Python results *)

Inductive exception : Type :=
| ZeroDivisionError
| OverflowError
| TypeError
| ValueError.

Inductive result (A : Type) : Type :=
| Ok (a : A)
| Raise (e : exception).
Arguments Ok {A} a.
Arguments Raise {A} e.

Definition rbind {A B : Type} (r : result A) (f : A -> result B) : result B :=
  match r with
  | Ok a => f a
  | Raise e => Raise e
  end.

#[global] Instance result_bind : MBind result :=
  fun A B f r => rbind r f.
#[global] Instance result_ret : MRet result := @Ok.

(** ** Python arithmetic used by the script *)

Module Py.

(** [a // b] on ints: floor division, [ZeroDivisionError] on [b = 0]. *)
Definition floordiv (a b : Z) : result Z :=
  if (b =? 0)%Z then Raise ZeroDivisionError else Ok (a / b)%Z.

(** Floats keep their range: what is modelled of them is that an int of
    magnitude [2^1024 - 2^970] or more (the midpoint between the largest
    float and [2^1024]) does not convert, that a power below half the
    smallest float is 0.0, and that a quotient beyond the range is an
    infinity.  Within the range a float is the rational it stands for:
    rounding is not modelled. *)
Definition float_limit : Z := (2 ^ 1024 - 2 ^ 970)%Z.

(** A float result: a number or an infinity. *)
Inductive float : Type :=
| Finite (x : Q)
| Infinity (negative : bool).

(** What [**] on two ints gives: an int, or a float when the exponent is
    negative. *)
Inductive number : Type :=
| Int (n : Z)
| Float (x : Q).

(** The conversion an arithmetic operator applies to an int operand:
    [OverflowError] ("int too large to convert to float") out of range. *)
Definition float_of_int (n : Z) : result Q :=
  if (float_limit <=? Z.abs n)%Z then Raise OverflowError
  else Ok (inject_Z n).

(** [b ** e] on ints.  With [e >= 0] the result is the exact int.  A
    negative exponent leaves the integers: Python converts both operands
    and computes [float(b) ** float(e)], refusing a zero base; the power
    of a non-zero int is at most 1 in magnitude and underflows to 0.0 once
    it is [2^-1075] or less. *)
Definition pow (b e : Z) : result number :=
  if (0 <=? e)%Z then Ok (Int (b ^ e))
  else
    _ ← float_of_int b;
    _ ← float_of_int e;
    if (b =? 0)%Z then Raise ZeroDivisionError
    else if (2 ^ 1075 <=? Z.abs b ^ (- e))%Z then Ok (Float 0)
         else Ok (Float (/ inject_Z (b ^ (- e)))).

(** The float a quotient is stored as: float division does not raise on
    overflow, it gives an infinity. *)
Definition overflowing (x : Q) : float :=
  if Qle_bool (inject_Z float_limit) (Qabs x)
  then Infinity (negb (Qle_bool 0 x))
  else Finite x.

(** [x / d] for a float [x] and the result [d] of a power.  An int divisor
    is converted first, and being at least 1 in magnitude it cannot take
    the quotient out of the range [x] is in. *)
Definition truediv_by (x : Q) (d : number) : result float :=
  match d with
  | Int n =>
      y ← float_of_int n;
      if Qeq_bool y 0 then Raise ZeroDivisionError else Ok (Finite (x / y))
  | Float y =>
      if Qeq_bool y 0 then Raise ZeroDivisionError
      else Ok (overflowing (x / y))
  end.

(** [x / y] where the divisor is known to convert and the quotient to stay
    in range: the batch size of line 130, which has by then served as a
    tensor dimension. *)
Definition truediv (x y : Q) : result Q :=
  if Qeq_bool y 0 then Raise ZeroDivisionError else Ok (x / y).

(** [max(a, b)]: the first argument is kept unless the second is
    strictly greater. *)
Definition max (a b : Q) : Q :=
  if Qle_bool b a then a else b.

(** [max(a, b)] when [b] may be an infinity. *)
Definition max_float (a : Q) (b : float) : float :=
  match b with
  | Finite x => Finite (max a x)
  | Infinity false => Infinity false
  | Infinity true => Finite a
  end.

(** [int(x)] of a float: truncation toward zero. *)
Definition int (x : Q) : Z :=
  Z.quot (Qnum x) (Zpos (Qden x)).

End Py.

(** ** train.py *)

Module Train.

(** [get_schedule_function(...)(epoch)], lines 10-18. *)
Definition scheduler
    (starting_lr : Q) (reduce_lr_every_n_epochs reduce_lr_factor : Z)
    (min_learning_rate : Q) (epoch : Z) : result Py.float :=
  num_reductions ← Py.floordiv epoch reduce_lr_every_n_epochs;
  reduction_factor ← Py.pow reduce_lr_factor num_reductions;
  lr ← Py.truediv_by starting_lr reduction_factor;
  Ok (Py.max_float min_learning_rate lr).

Definition get_schedule_function
    (starting_lr : Q) (reduce_lr_every_n_epochs reduce_lr_factor : Z)
    (min_learning_rate : Q) : Z -> result Py.float :=
  scheduler starting_lr reduce_lr_every_n_epochs reduce_lr_factor
            min_learning_rate.

(** The schedule as the specification words it:
    max(min_lr, starting_lr / factor^(e // n)). *)
Definition schedule_formula
    (starting_lr : Q) (reduce_lr_every_n_epochs reduce_lr_factor : Z)
    (min_learning_rate : Q) (epoch : Z) : Q :=
  Qmax min_learning_rate
       (starting_lr /
        inject_Z reduce_lr_factor ^ (epoch / reduce_lr_every_n_epochs)).

(** *** Game records read for the step count, lines 121-134 *)

(** What [json.load] yields. *)
Inductive json : Type :=
| JNull
| JBool (b : bool)
| JNumber (q : Q)
| JString (s : string)
| JArray (l : list json)
| JObject (o : list (string * json)).

(** [len(v)]; numbers, booleans and null have no length. *)
Definition len (v : json) : result nat :=
  match v with
  | JString s => Ok (String.length s)
  | JArray l => Ok (length l)
  | JObject o => Ok (length o)
  | _ => Raise TypeError
  end.

(** One iteration of the inner loop:
    [if "tcn" in game: moves += len(game["tcn"]) / 2]. *)
Definition count_game (moves : Q) (game : gmap string json) : result Q :=
  match game !! "tcn" with
  | Some tcn =>
      n ← len tcn;
      Ok (moves + inject_Z (Z.of_nat n) / 2)
  | None => Ok moves
  end.

(** [for game in games: ...] *)
Fixpoint count_games (moves : Q) (games : list (gmap string json))
    : result Q :=
  match games with
  | [] => Ok moves
  | game :: rest =>
      moves' ← count_game moves game;
      count_games moves' rest
  end.

(** [for path in paths: games = json.load(f); ...]; a file is given by
    the list of game records it holds. *)
Fixpoint count_files (moves : Q) (files : list (list (gmap string json)))
    : result Q :=
  match files with
  | [] => Ok moves
  | games :: rest =>
      moves' ← count_games moves games;
      count_files moves' rest
  end.

(** [int(moves / args.batch_size)] with [moves] counted from 0. *)
Definition steps_per_epoch
    (files : list (list (gmap string json))) (batch_size : Z)
    : result Z :=
  moves ← count_files 0 files;
  q ← Py.truediv moves (inject_Z batch_size);
  Ok (Py.int q).

(** The count as the specification words it: half the length of every
    "tcn" field, summed over all loaded records, divided by the batch
    size and rounded down. *)
Definition half_moves (game : gmap string json) : Q :=
  match game !! "tcn" with
  | Some tcn =>
      match len tcn with
      | Ok n => inject_Z (Z.of_nat n) / 2
      | Raise _ => 0
      end
  | None => 0
  end.

Definition Qsum (l : list Q) : Q := foldr Qplus 0 l.

Definition steps_formula
    (files : list (list (gmap string json))) (batch_size : Z) : Z :=
  Qfloor (Qsum (half_moves <$> concat files) / inject_Z batch_size).

(** Every "tcn" field that is present is a sized value. *)
Definition tcn_sized (game : gmap string json) : Prop :=
  forall v, game !! "tcn" = Some v -> exists n, len v = Ok n.

End Train.

(** ** TensorFlow values *)

Module TF.

Inductive dtype : Type := float16 | bfloat16 | float32 | float64.

(** A scalar watched by the gradient tape: its value together with its
    partial derivative along every trainable variable, in the order of
    [trainable_variables].  [tape.gradient] reads the second component. *)
Record scalar : Type := Scalar { value : Q; grad : list Q }.

Record tensor : Type :=
  Tensor { dtype_of : dtype; shape : list nat; data : list scalar }.

(** An entry of a gradient as the optimizer sees it: a number, or a
    non-finite value (inf, nan) left by a float16 overflow. *)
Inductive gradient : Type :=
| Finite (q : Q)
| NonFinite.

(** [w * x] for a Python float [w]. *)
Definition scale (w : Q) (x : scalar) : scalar :=
  {| value := w * value x; grad := Qmult w <$> grad x |}.

(** [x + y]. *)
Definition add (x y : scalar) : scalar :=
  {| value := value x + value y; grad := zip_with Qplus (grad x) (grad y) |}.

(** [tf.nn.relu]. *)
Definition relu (x : scalar) : scalar :=
  if Qle_bool 0 (value x) then x
  else {| value := 0; grad := (fun _ => 0) <$> grad x |}.

(** [tf.cast(x, d)]. *)
Definition cast (x : tensor) (d : dtype) : tensor :=
  {| dtype_of := d; shape := shape x; data := data x |}.

(** Number of elements of a shape. *)
Definition numel (s : list nat) : nat := foldr Nat.mul 1%nat s.

(** [tf.keras.layers.Reshape(target_shape)(x)]: the batch dimension is
    kept, the remaining ones are replaced when the sizes agree.  This is
    the layer as Keras builds it into a graph, which is how [fit] runs
    [train_step]: the static shape is checked and a mismatch is a
    [ValueError].  Run eagerly the check is on the values instead (another
    exception class, and an empty batch passes whatever its sample size);
    that mode is not modelled. *)
Definition reshape (target_shape : list nat) (x : tensor) : result tensor :=
  match shape x with
  | [] => Raise ValueError
  | batch :: rest =>
      if decide (numel rest = numel target_shape)
      then Ok {| dtype_of := dtype_of x;
                 shape := batch :: target_shape;
                 data := data x |}
      else Raise ValueError
  end.

End TF.

(** ** tf_net.py *)

(** The layer classes: [tf.keras.layers.Reshape] and the four imported from
    [tf_layers], each with the arguments its constructor is given. *)

Module Reshape.
Record t : Type := { target_shape : list nat }.
End Reshape.

Module ConvBlock.
Record t : Type := {
  filter_size : nat;
  output_channels : nat;
  constrain_norms : bool;
  bn_scale : bool;
  name : string }.
End ConvBlock.

Module ResidualBlock.
Record t : Type := {
  channels : nat;
  se_ratio : nat;
  constrain_norms : bool;
  name : string }.
End ResidualBlock.

Module ConvolutionalPolicyHead.
Record t : Type := {
  num_filters : nat;
  constrain_norms : bool }.
End ConvolutionalPolicyHead.

Module ConvolutionalValueOrMovesLeftHead.
Record t : Type := {
  output_dim : nat;
  num_filters : nat;
  hidden_dim : nat;
  constrain_norms : bool;
  relu : bool }.
End ConvolutionalValueOrMovesLeftHead.

(** A layer object of any of these classes. *)
Inductive layer : Type :=
| reshape_layer (l : Reshape.t)
| conv_block (l : ConvBlock.t)
| residual_block (l : ResidualBlock.t)
| policy_head_layer (l : ConvolutionalPolicyHead.t)
| value_or_moves_left_head (l : ConvolutionalValueOrMovesLeftHead.t).

Coercion reshape_layer : Reshape.t >-> layer.
Coercion conv_block : ConvBlock.t >-> layer.
Coercion residual_block : ResidualBlock.t >-> layer.
Coercion policy_head_layer : ConvolutionalPolicyHead.t >-> layer.
Coercion value_or_moves_left_head :
  ConvolutionalValueOrMovesLeftHead.t >-> layer.

(** The functions imported from [tf_losses]. *)
Inductive loss_fn : Type := policy_loss | value_loss | moves_left_loss.

(** A trainable variable is referred to by its position in
    [trainable_variables]. *)
Definition var : Type := nat.

(** What the code asks of Keras and of the imported modules. *)
Inductive event : Type -> Type :=
| CallLayer (l : layer) (x : TF.tensor) : event TF.tensor
| CallLoss (f : loss_fn) (target out : TF.tensor) : event TF.scalar
| GlobalPolicyName : event string
| TrainableVariables : event (list var)
| GetScaledLoss (loss : TF.scalar) : event TF.scalar
| TapeGradient (target : TF.scalar) (sources : list var)
    : event (list TF.gradient)
| GetUnscaledGradients (grads : list TF.gradient) : event (list TF.gradient)
| ApplyGradients (grads_and_vars : list (TF.gradient * var)) : event unit.

(** Programs over these requests. *)
Inductive prog (A : Type) : Type :=
| Ret (a : A)
| Do {X : Type} (e : event X) (k : X -> prog A).
Arguments Ret {A} a.
Arguments Do {A X} e k.

Fixpoint pbind {A B : Type} (p : prog A) (f : A -> prog B) : prog B :=
  match p with
  | Ret a => f a
  | Do e k => Do e (fun x => pbind (k x) f)
  end.

#[global] Instance prog_bind : MBind prog := fun A B f p => pbind p f.
#[global] Instance prog_ret : MRet prog := @Ret.

Definition ask {X : Type} (e : event X) : prog X := Do e Ret.

(** [for x in xs: flow = body(x, flow)] *)
Fixpoint for_each {A S : Type} (xs : list A) (body : A -> S -> prog S)
    (flow : S) : prog S :=
  match xs with
  | [] => Ret flow
  | x :: rest => pbind (body x flow) (for_each rest body)
  end.

Module LeelaZeroNet.

Record t : Type := {
  input_reshape : Reshape.t;
  input_block : ConvBlock.t;
  residual_blocks : list ResidualBlock.t;
  policy_head : ConvolutionalPolicyHead.t;
  value_head : ConvolutionalValueOrMovesLeftHead.t;
  moves_left_head : ConvolutionalValueOrMovesLeftHead.t;
  policy_loss_weight : Q;
  value_loss_weight : Q;
  moves_left_loss_weight : Q }.

(** [__init__], lines 12-61. *)
Definition init
    (num_filters num_residual_blocks se_ratio : nat)
    (constrain_norms : bool)
    (policy_loss_weight value_loss_weight moves_left_loss_weight : Q)
    : t :=
  {| input_reshape := {| Reshape.target_shape := [112; 8; 8]%nat |};
     input_block :=
       {| ConvBlock.filter_size := 3;
          ConvBlock.output_channels := num_filters;
          ConvBlock.constrain_norms := constrain_norms;
          ConvBlock.bn_scale := true;
          ConvBlock.name := "input_block" |};
     residual_blocks :=
       (fun i : nat =>
          {| ResidualBlock.channels := num_filters;
             ResidualBlock.se_ratio := se_ratio;
             ResidualBlock.constrain_norms := constrain_norms;
             ResidualBlock.name := "residual_block_" +:+ pretty i |})
         <$> seq 0 num_residual_blocks;
     policy_head :=
       {| ConvolutionalPolicyHead.num_filters := num_filters;
          ConvolutionalPolicyHead.constrain_norms := constrain_norms |};
     value_head :=
       {| ConvolutionalValueOrMovesLeftHead.output_dim := 3;
          ConvolutionalValueOrMovesLeftHead.num_filters := 32;
          ConvolutionalValueOrMovesLeftHead.hidden_dim := 128;
          ConvolutionalValueOrMovesLeftHead.constrain_norms :=
            constrain_norms;
          ConvolutionalValueOrMovesLeftHead.relu := false |};
     moves_left_head :=
       {| ConvolutionalValueOrMovesLeftHead.output_dim := 1;
          ConvolutionalValueOrMovesLeftHead.num_filters := 8;
          ConvolutionalValueOrMovesLeftHead.hidden_dim := 128;
          ConvolutionalValueOrMovesLeftHead.constrain_norms :=
            constrain_norms;
          ConvolutionalValueOrMovesLeftHead.relu := true |};
     policy_loss_weight := policy_loss_weight;
     value_loss_weight := value_loss_weight;
     moves_left_loss_weight := moves_left_loss_weight |}.

(** [call], lines 63-75. *)
Definition call (self : t) (inputs : TF.tensor)
    : prog (TF.tensor * TF.tensor * TF.tensor) :=
  flow ← ask (CallLayer (input_reshape self) inputs);
  flow ← ask (CallLayer (input_block self) flow);
  flow ← for_each (residual_blocks self)
                  (fun (residual_block : ResidualBlock.t) flow =>
                     ask (CallLayer residual_block flow))
                  flow;
  policy_out ← ask (CallLayer (policy_head self) flow);
  value_out ← ask (CallLayer (value_head self) flow);
  moves_left_out ← ask (CallLayer (moves_left_head self) flow);
  mret (TF.cast policy_out TF.float32,
        TF.cast value_out TF.float32,
        TF.cast moves_left_out TF.float32).

(** [train_step], lines 77-102. *)
Definition train_step (self : t)
    (inputs : TF.tensor * TF.tensor * TF.tensor * TF.tensor)
    : prog (gmap string TF.scalar) :=
  let '(input_planes, policy_target, wdl_target, moves_left_target) :=
    inputs in
  '(policy_out, value_out, moves_left_out) ← call self input_planes;
  p_loss ← ask (CallLoss policy_loss policy_target policy_out);
  v_loss ← ask (CallLoss value_loss wdl_target value_out);
  ml_loss ← ask (CallLoss moves_left_loss moves_left_target moves_left_out);
  let total_loss :=
    TF.add (TF.add (TF.scale (policy_loss_weight self) p_loss)
                   (TF.scale (value_loss_weight self) v_loss))
           (TF.scale (moves_left_loss_weight self) ml_loss) in
  policy_name ← ask GlobalPolicyName;
  gradients ←
    (if String.eqb policy_name "mixed_float16" then
       scaled_loss ← ask (GetScaledLoss total_loss);
       variables ← ask TrainableVariables;
       scaled_gradients ← ask (TapeGradient scaled_loss variables);
       ask (GetUnscaledGradients scaled_gradients)
     else
       variables ← ask TrainableVariables;
       ask (TapeGradient total_loss variables));
  variables ← ask TrainableVariables;
  _ ← ask (ApplyGradients (zip gradients variables));
  mret (<["policy_loss" := p_loss]>
        (<["value_loss" := v_loss]>
         (<["moves_left_loss" := ml_loss]>
          (<["loss" := total_loss]> ∅)))).

End LeelaZeroNet.

(** ** The collaborators

    Everything the two methods reach outside [tf_net.py]: the layer and
    loss implementations of the imported modules, and the optimizer that
    [compile] installed.  [ostate] is the optimizer's own state (slots,
    loss scale). *)

Section Collaborators.

Context {ostate : Type}.

(** The collaborators are taken to return: each is a total function, so
    an exception raised inside a layer, a loss or the optimizer is outside
    this model, and the only failure a run can show is the one of Keras'
    own [Reshape].  Nothing below is stated about the absence of other
    failures. *)
Record runtime : Type := {
  (** [layer(x)] for the layers of [tf_layers], under the current
      values of the trainable variables *)
  layer_call : layer -> list Q -> TF.tensor -> TF.tensor;
  (** [loss(target, output)] for the functions of [tf_losses] *)
  loss_call : loss_fn -> TF.tensor -> TF.tensor -> TF.scalar;
  (** [optimizer.get_scaled_loss(loss)] *)
  get_scaled_loss : ostate -> TF.scalar -> TF.scalar;
  (** [optimizer.get_unscaled_gradients(grads)]; with idealised scalars
      a float16 overflow is not computed: the optimizer reports it as a
      [NonFinite] entry *)
  get_unscaled_gradients :
    ostate -> list TF.gradient -> list TF.gradient;
  (** [optimizer.apply_gradients(grads_and_vars)]: the new optimizer
      state and the new values of the variables *)
  apply_gradients :
    ostate -> list (TF.gradient * var) -> list Q -> ostate * list Q }.

Record world : Type := {
  global_policy : string;
  variables : list Q;
  optimizer_state : ostate }.

Context (rt : runtime).

(** [layer(x)]: Keras' own [Reshape], or one of the imported layers. *)
Definition apply_layer (vars : list Q) (l : layer) (x : TF.tensor)
    : result TF.tensor :=
  match l with
  | reshape_layer r => TF.reshape (Reshape.target_shape r) x
  | _ => Ok (layer_call rt l vars x)
  end.

(** [tape.gradient(target, sources)]: the partial derivative of the
    target along each source. *)
Definition tape_gradient (target : TF.scalar) (sources : list var)
    : list TF.gradient :=
  (fun v : var => TF.Finite (nth v (TF.grad target) 0)) <$> sources.

Definition handle {X : Type} (e : event X) (w : world)
    : result (X * world) :=
  match e in event X return result (X * world) with
  | CallLayer l x =>
      y ← apply_layer (variables w) l x; Ok (y, w)
  | CallLoss f target out => Ok (loss_call rt f target out, w)
  | GlobalPolicyName => Ok (global_policy w, w)
  | TrainableVariables => Ok (seq 0 (length (variables w)), w)
  | GetScaledLoss loss =>
      Ok (get_scaled_loss rt (optimizer_state w) loss, w)
  | TapeGradient target sources => Ok (tape_gradient target sources, w)
  | GetUnscaledGradients grads =>
      Ok (get_unscaled_gradients rt (optimizer_state w) grads, w)
  | ApplyGradients grads_and_vars =>
      let '(os, vs) :=
        apply_gradients rt (optimizer_state w) grads_and_vars
                        (variables w) in
      Ok (tt, {| global_policy := global_policy w;
                 variables := vs;
                 optimizer_state := os |})
  end.

(** A request that was made, in the log of a run. *)
Inductive called : Type :=
| Called {X : Type} (e : event X).

(** Running a program: the requests made, in order, and the outcome. *)
Fixpoint run {A : Type} (p : prog A) (w : world)
    : list called * result (A * world) :=
  match p with
  | Ret a => ([], Ok (a, w))
  | Do e k =>
      match handle e w with
      | Ok (x, w') =>
          let '(log, r) := run (k x) w' in (Called e :: log, r)
      | Raise ex => ([Called e], Raise ex)
      end
  end.

End Collaborators.

Arguments runtime : clear implicits.
Arguments world : clear implicits.

(** ** The forward pass and the step as the specification describes them *)

Section Described.

Context {ostate : Type} (rt : runtime ostate).

(** N residual blocks applied one after the other. *)
Definition tower (vars : list Q) (blocks : list ResidualBlock.t)
    (flow : TF.tensor) : TF.tensor :=
  foldl (fun flow (b : ResidualBlock.t) => layer_call rt b vars flow)
        flow blocks.

(** The trunk feature map: input block, then the tower. *)
Definition trunk (self : LeelaZeroNet.t) (vars : list Q)
    (spatial : TF.tensor) : TF.tensor :=
  tower vars (LeelaZeroNet.residual_blocks self)
        (layer_call rt (LeelaZeroNet.input_block self) vars spatial).

(** The three heads on one trunk tensor, each output cast to float32. *)
Definition heads (self : LeelaZeroNet.t) (vars : list Q)
    (flow : TF.tensor) : TF.tensor * TF.tensor * TF.tensor :=
  (TF.cast (layer_call rt (LeelaZeroNet.policy_head self) vars flow)
           TF.float32,
   TF.cast (layer_call rt (LeelaZeroNet.value_head self) vars flow)
           TF.float32,
   TF.cast (layer_call rt (LeelaZeroNet.moves_left_head self) vars flow)
           TF.float32).

(** The requests the tower makes, with the tensor each block receives. *)
Fixpoint tower_log (vars : list Q) (blocks : list ResidualBlock.t)
    (flow : TF.tensor) : list called :=
  match blocks with
  | [] => []
  | b :: rest =>
      Called (CallLayer b flow)
        :: tower_log vars rest (layer_call rt b vars flow)
  end.

(** The requests of a whole forward pass on a reshaped input. *)
Definition forward_log (self : LeelaZeroNet.t) (vars : list Q)
    (inputs spatial : TF.tensor) : list called :=
  let lifted := layer_call rt (LeelaZeroNet.input_block self) vars spatial in
  let flow := trunk self vars spatial in
  [Called (CallLayer (LeelaZeroNet.input_reshape self) inputs);
   Called (CallLayer (LeelaZeroNet.input_block self) spatial)]
  ++ tower_log vars (LeelaZeroNet.residual_blocks self) lifted
  ++ [Called (CallLayer (LeelaZeroNet.policy_head self) flow);
      Called (CallLayer (LeelaZeroNet.value_head self) flow);
      Called (CallLayer (LeelaZeroNet.moves_left_head self) flow)].

(** The three component losses of a batch. *)
Definition component_losses (self : LeelaZeroNet.t) (vars : list Q)
    (spatial policy_target wdl_target moves_left_target : TF.tensor)
    : TF.scalar * TF.scalar * TF.scalar :=
  let '(policy_out, value_out, moves_left_out) :=
    heads self vars (trunk self vars spatial) in
  (loss_call rt policy_loss policy_target policy_out,
   loss_call rt value_loss wdl_target value_out,
   loss_call rt moves_left_loss moves_left_target moves_left_out).

(** The requests of the loss computation. *)
Definition losses_log (self : LeelaZeroNet.t) (vars : list Q)
    (spatial policy_target wdl_target moves_left_target : TF.tensor)
    : list called :=
  let '(policy_out, value_out, moves_left_out) :=
    heads self vars (trunk self vars spatial) in
  [Called (CallLoss policy_loss policy_target policy_out);
   Called (CallLoss value_loss wdl_target value_out);
   Called (CallLoss moves_left_loss moves_left_target moves_left_out)].

(** total = w_p * policy_loss + w_v * value_loss + w_m * moves_left_loss *)
Definition weighted_total (w_p w_v w_m : Q) (p v ml : TF.scalar)
    : TF.scalar :=
  TF.add (TF.add (TF.scale w_p p) (TF.scale w_v v)) (TF.scale w_m ml).

(** The reduced-precision path: scale, differentiate, unscale. *)
Definition scaled_path (os : ostate) (total : TF.scalar)
    (refs : list var) : list TF.gradient :=
  get_unscaled_gradients rt os
    (tape_gradient (get_scaled_loss rt os total) refs).

Definition scaled_path_log (os : ostate) (total : TF.scalar)
    (refs : list var) : list called :=
  [Called (GetScaledLoss total);
   Called TrainableVariables;
   Called (TapeGradient (get_scaled_loss rt os total) refs);
   Called (GetUnscaledGradients
             (tape_gradient (get_scaled_loss rt os total) refs))].

(** The full-precision path: differentiate the total directly. *)
Definition direct_path (total : TF.scalar) (refs : list var)
    : list TF.gradient :=
  tape_gradient total refs.

Definition direct_path_log (total : TF.scalar) (refs : list var)
    : list called :=
  [Called TrainableVariables; Called (TapeGradient total refs)].

(** The gradients a step hands to the optimizer. *)
Definition step_gradients (w : world ostate) (total : TF.scalar)
    : list TF.gradient :=
  let refs := seq 0 (length (variables w)) in
  if String.eqb (global_policy w) "mixed_float16"
  then scaled_path (optimizer_state w) total refs
  else direct_path total refs.

(** The requests of the gradient computation. *)
Definition gradients_log (w : world ostate) (total : TF.scalar)
    : list called :=
  let refs := seq 0 (length (variables w)) in
  if String.eqb (global_policy w) "mixed_float16"
  then scaled_path_log (optimizer_state w) total refs
  else direct_path_log total refs.

(** The update request that ends a step. *)
Definition update_log (gradients : list TF.gradient) (refs : list var)
    : list called :=
  [Called TrainableVariables;
   Called (ApplyGradients (zip gradients refs))].

(** The four reported scalars. *)
Definition metrics (p v ml total : TF.scalar) : gmap string TF.scalar :=
  <["policy_loss" := p]>
    (<["value_loss" := v]>
       (<["moves_left_loss" := ml]> (<["loss" := total]> ∅))).

(** The state a step leaves behind. *)
Definition updated (w : world ostate) (gradients : list TF.gradient)
    : world ostate :=
  let refs := seq 0 (length (variables w)) in
  let '(os, vs) :=
    apply_gradients rt (optimizer_state w) (zip gradients refs)
                    (variables w) in
  {| global_policy := global_policy w;
     variables := vs;
     optimizer_state := os |}.

(** A gradient entry that is the number 0. *)
Definition is_zero (g : TF.gradient) : Prop :=
  match g with
  | TF.Finite q => q == 0
  | TF.NonFinite => False
  end.

End Described.

(** The layer of a logged request, if it is a layer call. *)
Definition called_layer (c : called) : option layer :=
  match c with
  | Called e =>
      match e with
      | CallLayer l _ => Some l
      | _ => None
      end
  end.

(** Whether a logged request scales a loss or unscales gradients. *)
Definition is_scaling (c : called) : bool :=
  match c with
  | Called e =>
      match e with
      | GetScaledLoss _ | GetUnscaledGradients _ => true
      | _ => false
      end
  end.

(** Whether a logged request is an update of the variables. *)
Definition is_update (c : called) : bool :=
  match c with
  | Called e =>
      match e with
      | ApplyGradients _ => true
      | _ => false
      end
  end.

(** Whether a logged request differentiates. *)
Definition is_differentiation (c : called) : bool :=
  match c with
  | Called e =>
      match e with
      | TapeGradient _ _ => true
      | _ => false
      end
  end.

(** ** The layers of tf_layers.py *)

Module Layers.

(** Modelled from the spec: what [tf_layers.py], which is not among the
    sources, learns.  §4 fixes each layer's structure and output shape and
    leaves the arithmetic free, so an output unit is an arbitrary function
    of the layer (and the sub-layer within it), the variables, the layer's
    whole input, the sample and the unit's index.  [compute_dtype] is the
    internal compute precision, [move_space] the size of the
    move-encoding space. *)
Record kernel : Type := {
  compute_dtype : TF.dtype;
  move_space : nat;
  unit_value :
    layer -> string -> list Q -> TF.tensor -> nat -> nat -> TF.scalar }.

Definition batch (x : TF.tensor) : nat := hd 0%nat (TF.shape x).

(** [n] units for each of [b] samples, sample by sample. *)
Definition units (f : nat -> nat -> TF.scalar) (b n : nat)
    : list TF.scalar :=
  flat_map (fun i => f i <$> seq 0 n) (seq 0 b).

(** Modelled from the spec: the Convolution-Normalization Block of §4.1,
    missing with [tf_layers.py]: "Output shape matches input spatial
    dimensions with the configured output channel count". *)
Definition conv_norm (k : kernel) (l : layer) (part : string)
    (out_channels : nat) (vars : list Q) (x : TF.tensor) : TF.tensor :=
  let h := nth 2 (TF.shape x) 0%nat in
  let w := nth 3 (TF.shape x) 0%nat in
  {| TF.dtype_of := compute_dtype k;
     TF.shape := [batch x; out_channels; h; w];
     TF.data := units (unit_value k l part vars x) (batch x)
                      (out_channels * h * w) |}.

(** Modelled from the spec: the Residual Block of §4.3, missing with
    [tf_layers.py]: "input and output shapes are identical". *)
Definition residual (k : kernel) (l : layer) (vars : list Q)
    (x : TF.tensor) : TF.tensor :=
  {| TF.dtype_of := compute_dtype k;
     TF.shape := TF.shape x;
     TF.data := units (unit_value k l "block" vars x) (batch x)
                      (TF.numel (tail (TF.shape x))) |}.

(** Modelled from the spec: the flattening step of the heads of §4.5
    ("reducing the trunk feature map to a flat representation"). *)
Definition flatten (x : TF.tensor) : TF.tensor :=
  {| TF.dtype_of := TF.dtype_of x;
     TF.shape := [batch x; TF.numel (tail (TF.shape x))];
     TF.data := TF.data x |}.

(** Modelled from the spec: a dense projection of §4.5 to [n] outputs per
    sample. *)
Definition dense (k : kernel) (l : layer) (part : string) (n : nat)
    (vars : list Q) (x : TF.tensor) : TF.tensor :=
  {| TF.dtype_of := compute_dtype k;
     TF.shape := [batch x; n];
     TF.data := units (unit_value k l part vars x) (batch x) n |}.

(** Modelled from the spec: the clamping nonlinearity of §4.5
    ("output ≥ 0"), applied to every entry. *)
Definition clamp (x : TF.tensor) : TF.tensor :=
  {| TF.dtype_of := TF.dtype_of x;
     TF.shape := TF.shape x;
     TF.data := TF.relu <$> TF.data x |}.

(** Modelled from the spec: the Policy Head of §4.5, missing with
    [tf_layers.py]: a convolutional reduction, flattened, then a dense
    projection "to the full move-encoding space"; logits, not
    normalised. *)
Definition policy (k : kernel) (h : ConvolutionalPolicyHead.t)
    (vars : list Q) (x : TF.tensor) : TF.tensor :=
  let flow :=
    conv_norm k h "conv" (ConvolutionalPolicyHead.num_filters h) vars x in
  dense k h "output" (move_space k) vars (flatten flow).

(** Modelled from the spec: the final dense projection of the
    Value/Moves-Left Head of §4.5, before any clamping: "reduces via a
    smaller number of convolutional filters, flattens, passes through a
    hidden dense layer, then a final dense projection to the requested
    output dimension". *)
Definition projection (k : kernel)
    (h : ConvolutionalValueOrMovesLeftHead.t) (vars : list Q)
    (x : TF.tensor) : TF.tensor :=
  let flow :=
    conv_norm k h "conv" (ConvolutionalValueOrMovesLeftHead.num_filters h)
              vars x in
  let flow := flatten flow in
  let flow :=
    dense k h "hidden" (ConvolutionalValueOrMovesLeftHead.hidden_dim h)
          vars flow in
  dense k h "output" (ConvolutionalValueOrMovesLeftHead.output_dim h)
        vars flow.

(** Modelled from the spec: the Value/Moves-Left Head of §4.5, missing
    with [tf_layers.py]: the projection, clamped when the head was built
    with [relu=True] ("The moves-left variant additionally applies a
    clamping nonlinearity ...; the value variant does not clamp"). *)
Definition value_or_moves_left (k : kernel)
    (h : ConvolutionalValueOrMovesLeftHead.t) (vars : list Q)
    (x : TF.tensor) : TF.tensor :=
  let out := projection k h vars x in
  if ConvolutionalValueOrMovesLeftHead.relu h then clamp out else out.

(** Modelled from the spec: [layer(x)] for the classes of
    [tf_layers.py], by §4.1, §4.3 and §4.5. *)
Definition call (k : kernel) (l : layer) (vars : list Q) (x : TF.tensor)
    : TF.tensor :=
  match l with
  | reshape_layer _ => x (* Keras' own layer: see [TF.reshape] *)
  | conv_block c =>
      conv_norm k l "conv" (ConvBlock.output_channels c) vars x
  | residual_block _ => residual k l vars x
  | policy_head_layer h => policy k h vars x
  | value_or_moves_left_head h => value_or_moves_left k h vars x
  end.

End Layers.

(** ** A small configuration to run *)

Module Example.

(** Units that depend on the sample, the unit and the first variable;
    the first unit of the first sample is negative. *)
Definition kernel : Layers.kernel :=
  {| Layers.compute_dtype := TF.float16;
     Layers.move_space := 1858;
     Layers.unit_value := fun _ _ vars _ i j =>
       {| TF.value := inject_Z (Z.of_nat (i + j)) - 1 + hd 0 vars;
          TF.grad := [1; 0] |} |}.

(** A loss that sums the first output with the first target. *)
Definition loss (_ : loss_fn) (target out : TF.tensor) : TF.scalar :=
  TF.add (hd (TF.Scalar 0 [0; 0]) (TF.data target))
         (hd (TF.Scalar 0 [0; 0]) (TF.data out)).

(** float16 holds magnitudes up to 65504. *)
Definition overflows (q : Q) : bool := negb (Qle_bool (Qabs q) 65504).

Definition unscale (loss_scale : Q) (g : TF.gradient) : TF.gradient :=
  match g with
  | TF.Finite q =>
      if overflows q then TF.NonFinite else TF.Finite (q * / loss_scale)
  | TF.NonFinite => TF.NonFinite
  end.

Definition is_non_finite (g : TF.gradient) : bool :=
  match g with
  | TF.Finite _ => false
  | TF.NonFinite => true
  end.

(** Plain gradient descent with rate 1/10 on one variable. *)
Definition descend (vars : list Q) (gv : TF.gradient * var) : list Q :=
  match gv.1 with
  | TF.Finite q =>
      if Qeq_bool q 0 then vars
      else alter (fun v => v - (1 # 10) * q) gv.2 vars
  | TF.NonFinite => vars
  end.

(** A loss-scaling optimizer whose state is the loss scale: it halves the
    scale and skips the update on a non-finite gradient. *)
Definition runtime : runtime Q :=
  {| layer_call := Layers.call kernel;
     loss_call := loss;
     get_scaled_loss := fun loss_scale l => TF.scale loss_scale l;
     get_unscaled_gradients := fun loss_scale g => unscale loss_scale <$> g;
     apply_gradients := fun loss_scale gv vars =>
       if existsb is_non_finite gv.*1
       then (loss_scale * (1 # 2), vars)
       else (loss_scale, foldl descend vars gv) |}.

Definition constant (shape : list nat) (q : Q) : TF.tensor :=
  {| TF.dtype_of := TF.float32;
     TF.shape := shape;
     TF.data := replicate (TF.numel shape) (TF.Scalar q [0; 0]) |}.

(** Two samples: flat planes of zeros, flat targets, thirty moves left. *)
Definition planes : TF.tensor := constant [2; 112 * 64]%nat 0.
Definition spatial : TF.tensor := constant [2; 112; 8; 8]%nat 0.
Definition policy_target : TF.tensor := constant [2; 1858]%nat (1 # 1858).
Definition wdl_target : TF.tensor := constant [2; 3]%nat (1 # 3).
Definition moves_left_target : TF.tensor := constant [2; 1]%nat 30.

Definition world (policy : string) (loss_scale : Q) : world Q :=
  {| global_policy := policy;
     variables := [1 # 2; 1 # 4];
     optimizer_state := loss_scale |}.

Definition net (w_p w_v w_m : Q) : LeelaZeroNet.t :=
  LeelaZeroNet.init 4 2 8 true w_p w_v w_m.

(** Three game files: a six-character and a four-character move string, a
    record without moves, and an empty file. *)
Definition game_files : list (list (gmap string Train.json)) :=
  [[{["url" := Train.JString "a"; "tcn" := Train.JString "mC0Kgv"]};
    {["url" := Train.JString "b"]}];
   [];
   [{["tcn" := Train.JString "lB2U"; "rated" := Train.JBool true]}]].

End Example.

(** ** Other optimizers

    [train_step] works with whatever optimizer [compile] installed.  Two
    that differ from the example's. *)

Module Optimizers.

(** Units whose derivative along the second variable is a hundredth of the
    one along the first. *)
Definition kernel : Layers.kernel :=
  {| Layers.compute_dtype := TF.float16;
     Layers.move_space := 1858;
     Layers.unit_value := fun _ _ vars _ i j =>
       {| TF.value := inject_Z (Z.of_nat (i + j)) - 1
                      + hd 0 vars + (1 # 100) * hd 0 (tail vars);
          TF.grad := [1; 1 # 100] |} |}.


Definition number (g : TF.gradient) : Q :=
  match g with
  | TF.Finite q => q
  | TF.NonFinite => 0
  end.

(** Gradient descent with momentum 9/10 and rate 1/10; the state is the
    velocity of each variable.  It does not scale losses. *)
Definition momentum : runtime (list Q) :=
  {| layer_call := Layers.call Example.kernel;
     loss_call := Example.loss;
     get_scaled_loss := fun _ l => l;
     get_unscaled_gradients := fun _ g => g;
     apply_gradients := fun velocity gv vars =>
       let velocity :=
         zip_with (fun m (g : TF.gradient * var) =>
                     (9 # 10) * m + number g.1) velocity gv in
       (velocity, zip_with (fun v m => v - (1 # 10) * m) vars velocity) |}.

(** The example's variables, with the momentum optimizer in motion. *)
Definition in_motion (policy : string) : world (list Q) :=
  {| global_policy := policy;
     variables := [1 # 2; 1 # 4];
     optimizer_state := [1; 1] |}.

End Optimizers.


(** ** More of the two files *)

(** Whether a logged request is a layer call. *)
Definition is_layer_call (c : called) : bool :=
  match called_layer c with
  | Some _ => true
  | None => false
  end.




(** ["tcn" in game] *)
Definition has_tcn (game : gmap string Train.json) : bool :=
  match game !! "tcn" with
  | Some _ => true
  | None => false
  end.

(** The sum the loop of lines 121-128 accumulates. *)
Definition counted_moves (files : list (list (gmap string Train.json))) : Q :=
  Train.Qsum (Train.half_moves <$> concat files).

(** *** The start of the script, train.py lines 21-102 *)

Module Script.

Inductive optimizer_choice : Type := adam | lion.

(** The namespace [parser.parse_args()] returns; a path is the list of its
    parts. *)
Record args : Type := {
  num_filters : nat;
  num_residual_blocks : nat;
  se_ratio : nat;
  learning_rate : Q;
  no_constrain_norms : bool;
  max_grad_norm : Q;
  mixed_precision : bool;
  reduce_lr_every_n_epochs : option Z;
  reduce_lr_factor : Z;
  min_learning_rate : Q;
  save_dir : option (list string);
  tensorboard_dir : option (list string);
  dataset_path : list string;
  batch_size : Z;
  num_workers : Z;
  shuffle_buffer_size : Z;
  optimizer : optimizer_choice;
  policy_loss_weight : Q;
  value_loss_weight : Q;
  moves_left_loss_weight : Q }.

(** The optimizer objects the script builds. *)
Inductive optimizer_object : Type :=
| Adam (learning_rate global_clipnorm : Q)
| Lion (learning_rate global_clipnorm : Q)
| LossScaleOptimizer (inner_optimizer : optimizer_object).

(** The callbacks the script builds. *)
Inductive callback : Type :=
| LearningRateScheduler (schedule : Z -> result Py.float) (verbose : Z)
| ModelCheckpoint (filepath : list string) (save_weights_only : bool)
    (verbose : Z)
| TensorBoard (log_dir : list string) (update_freq : string)
    (histogram_freq : Z).

(** Lines 51-52: the global policy after them, given the one before. *)
Definition policy_after (a : args) (before : string) : string :=
  if mixed_precision a then "mixed_float16" else before.

(** Lines 64-78; [None] is the [ImportError] raised when Lion is asked for
    and [lion_tf] cannot be imported. *)
Definition make_optimizer (a : args) (lion_installed : bool)
    : option optimizer_object :=
  chosen ←
    match optimizer a with
    | lion =>
        if lion_installed
        then Some (Lion (learning_rate a) (max_grad_norm a))
        else None
    | adam => Some (Adam (learning_rate a) (max_grad_norm a))
    end;
  Some (if mixed_precision a then LossScaleOptimizer chosen else chosen).

(** Lines 79-102: the callbacks, in the order they are appended. *)
Definition callbacks (a : args) : list callback :=
  let callbacks := [] in
  let callbacks :=
    match reduce_lr_every_n_epochs a with
    | Some n =>
        callbacks
        ++ [LearningRateScheduler
              (Train.get_schedule_function (learning_rate a) n
                 (reduce_lr_factor a) (min_learning_rate a)) 1]
    | None => callbacks
    end in
  let callbacks :=
    match save_dir a with
    | Some dir =>
        callbacks
        ++ [ModelCheckpoint (dir ++ ["training_1"; "cp.ckpt"]) true 1]
    | None => callbacks
    end in
  match tensorboard_dir a with
  | Some dir => callbacks ++ [TensorBoard dir "batch" 1]
  | None => callbacks
  end.

(** Whether an optimizer object has [get_scaled_loss] and
    [get_unscaled_gradients], the two methods [train_step] calls under
    "mixed_float16". *)
Definition scales_losses (o : optimizer_object) : bool :=
  match o with
  | LossScaleOptimizer _ => true
  | _ => false
  end.

(** The learning rate an optimizer object starts from. *)
Fixpoint initial_rate (o : optimizer_object) : Q :=
  match o with
  | Adam lr _ | Lion lr _ => lr
  | LossScaleOptimizer inner => initial_rate inner
  end.

(** The norm an optimizer object clips gradients to. *)
Fixpoint clip_norm (o : optimizer_object) : Q :=
  match o with
  | Adam _ c | Lion _ c => c
  | LossScaleOptimizer inner => clip_norm inner
  end.

End Script.

(** A run of the script: reduced precision, Lion, the rate reduced every
    ten epochs, checkpoints and logs kept. *)
Module Cases.

Definition args : Script.args :=
  {| Script.num_filters := 4;
     Script.num_residual_blocks := 2;
     Script.se_ratio := 8;
     Script.learning_rate := 3 # 10000;
     Script.no_constrain_norms := false;
     Script.max_grad_norm := 56 # 10;
     Script.mixed_precision := true;
     Script.reduce_lr_every_n_epochs := Some 10%Z;
     Script.reduce_lr_factor := 3;
     Script.min_learning_rate := 5 # 1000000;
     Script.save_dir := Some ["runs"; "a"];
     Script.tensorboard_dir := Some ["logs"];
     Script.dataset_path := ["data"; "chunks"];
     Script.batch_size := 2;
     Script.num_workers := 1;
     Script.shuffle_buffer_size := 2 ^ 19;
     Script.optimizer := Script.lion;
     Script.policy_loss_weight := 1;
     Script.value_loss_weight := 1;
     Script.moves_left_loss_weight := 1 # 100 |}.

End Cases.

(** * Properties *)

(** ** Running programs *)

Section Running.

Context {ostate : Type} (rt : runtime ostate).

Lemma run_bind {A B : Type} (p : prog A) (f : A -> prog B) (w : world ostate) :
  run rt (pbind p f) w =
  match run rt p w with
  | (log, Ok (a, w')) =>
      let '(log', r) := run rt (f a) w' in (log ++ log', r)
  | (log, Raise ex) => (log, Raise ex)
  end.
Proof.
  revert w. induction p as [a | X e k IH]; intros w; simpl.
  - destruct (run rt (f a) w); reflexivity.
  - destruct (handle rt e w) as [[x w'] | ex]; [| reflexivity].
    rewrite IH. destruct (run rt (k x) w') as [log [[a w''] | ex]].
    + destruct (run rt (f a) w''); reflexivity.
    + reflexivity.
Qed.

Lemma run_tower (blocks : list ResidualBlock.t) (flow : TF.tensor)
    (w : world ostate) :
  run rt (for_each blocks
            (fun (b : ResidualBlock.t) flow => ask (CallLayer b flow)) flow) w
  = (tower_log rt (variables w) blocks flow,
     Ok (tower rt (variables w) blocks flow, w)).
Proof.
  revert flow. induction blocks as [| b rest IH]; intros flow; simpl.
  - reflexivity.
  - rewrite IH. reflexivity.
Qed.

Lemma run_call (self : LeelaZeroNet.t) (inputs spatial : TF.tensor)
    (w : world ostate) :
  TF.reshape (Reshape.target_shape (LeelaZeroNet.input_reshape self)) inputs
    = Ok spatial ->
  run rt (LeelaZeroNet.call self inputs) w
  = (forward_log rt self (variables w) inputs spatial,
     Ok (heads rt self (variables w) (trunk rt self (variables w) spatial),
         w)).
Proof.
  intros Hre. unfold LeelaZeroNet.call, mbind, prog_bind, mret, prog_ret.
  simpl. rewrite Hre. simpl.
  rewrite run_bind, run_tower. simpl. reflexivity.
Qed.

Lemma run_call_raise (self : LeelaZeroNet.t) (inputs : TF.tensor)
    (ex : exception) (w : world ostate) :
  TF.reshape (Reshape.target_shape (LeelaZeroNet.input_reshape self)) inputs
    = Raise ex ->
  run rt (LeelaZeroNet.call self inputs) w
  = ([Called (CallLayer (LeelaZeroNet.input_reshape self) inputs)], Raise ex).
Proof.
  intros Hre. unfold LeelaZeroNet.call, mbind, prog_bind.
  simpl. rewrite Hre. reflexivity.
Qed.

Lemma run_train_step (self : LeelaZeroNet.t)
    (inputs policy_target wdl_target moves_left_target spatial : TF.tensor)
    (w : world ostate) :
  TF.reshape (Reshape.target_shape (LeelaZeroNet.input_reshape self)) inputs
    = Ok spatial ->
  forall p v ml,
    component_losses rt self (variables w) spatial policy_target wdl_target
                     moves_left_target = (p, v, ml) ->
  let refs := seq 0 (length (variables w)) in
  let total :=
    weighted_total (LeelaZeroNet.policy_loss_weight self)
                   (LeelaZeroNet.value_loss_weight self)
                   (LeelaZeroNet.moves_left_loss_weight self) p v ml in
  run rt (LeelaZeroNet.train_step self
            (inputs, policy_target, wdl_target, moves_left_target)) w
  = (forward_log rt self (variables w) inputs spatial
     ++ losses_log rt self (variables w) spatial policy_target wdl_target
                   moves_left_target
     ++ [Called GlobalPolicyName]
     ++ gradients_log rt w total
     ++ update_log (step_gradients rt w total) refs,
     Ok (metrics p v ml total, updated rt w (step_gradients rt w total))).
Proof.
  intros Hre p v ml Hl refs total.
  unfold LeelaZeroNet.train_step, mbind, prog_bind.
  rewrite run_bind, (run_call _ _ _ _ Hre).
  unfold component_losses in Hl. unfold losses_log.
  destruct (heads rt self (variables w) (trunk rt self (variables w) spatial))
    as [[policy_out value_out] moves_left_out].
  injection Hl as <- <- <-.
  unfold gradients_log, step_gradients, updated, update_log.
  fold refs.
  simpl.
  destruct (String.eqb (global_policy w) "mixed_float16"); simpl.
  - destruct (apply_gradients rt (optimizer_state w) _ (variables w));
      simpl; rewrite <- !app_assoc; reflexivity.
  - destruct (apply_gradients rt (optimizer_state w) _ (variables w));
      simpl; rewrite <- !app_assoc; reflexivity.
Qed.

End Running.

(** ** The forward pass *)

Section Forward.

Context {ostate : Type} (rt : runtime ostate).

Lemma length_init_residual_blocks nf n se cn w_p w_v w_m :
  length (LeelaZeroNet.residual_blocks
            (LeelaZeroNet.init nf n se cn w_p w_v w_m)) = n.
Proof. simpl. rewrite length_fmap. apply length_seq. Qed.

Lemma tower_log_layers (vars : list Q) (blocks : list ResidualBlock.t)
    (flow : TF.tensor) :
  omap called_layer (tower_log rt vars blocks flow) = residual_block <$> blocks.
Proof.
  revert flow. induction blocks as [| b rest IH]; intros flow; simpl.
  - reflexivity.
  - f_equal. apply IH.
Qed.

Lemma forward_log_layers (self : LeelaZeroNet.t) (vars : list Q)
    (inputs spatial : TF.tensor) :
  omap called_layer (forward_log rt self vars inputs spatial)
  = [reshape_layer (LeelaZeroNet.input_reshape self);
     conv_block (LeelaZeroNet.input_block self)]
    ++ (residual_block <$> LeelaZeroNet.residual_blocks self)
    ++ [policy_head_layer (LeelaZeroNet.policy_head self);
        value_or_moves_left_head (LeelaZeroNet.value_head self);
        value_or_moves_left_head (LeelaZeroNet.moves_left_head self)].
Proof.
  unfold forward_log. rewrite !omap_app, tower_log_layers. reflexivity.
Qed.

Lemma reshape_shape (target : list nat) (x y : TF.tensor) :
  TF.reshape target x = Ok y ->
  TF.shape y = hd 0%nat (TF.shape x) :: target
  /\ TF.data y = TF.data x
  /\ TF.numel (tail (TF.shape x)) = TF.numel target.
Proof.
  unfold TF.reshape. destruct (TF.shape x) as [| b rest]; [discriminate |].
  case_decide; [| discriminate]. intros [= <-]. simpl. auto.
Qed.

(** C4: for every input, the forward pass of a constructed network first
    reshapes the input to 112x8x8 (or refuses it), then applies the input
    block once, then the N residual blocks one after the other, and hands
    the one resulting trunk tensor to each of the three heads; the layers
    called are exactly these, in this order. *)
Theorem call_is_sequential
    (num_filters num_residual_blocks se_ratio : nat) (constrain_norms : bool)
    (w_p w_v w_m : Q) (inputs : TF.tensor) (w : world ostate) :
  let self :=
    LeelaZeroNet.init num_filters num_residual_blocks se_ratio
                      constrain_norms w_p w_v w_m in
  let vars := variables w in
  length (LeelaZeroNet.residual_blocks self) = num_residual_blocks
  /\ match TF.reshape [112; 8; 8]%nat inputs with
     | Ok spatial =>
         TF.shape spatial = [hd 0 (TF.shape inputs); 112; 8; 8]%nat
         /\ exists log,
              let lifted :=
                layer_call rt (LeelaZeroNet.input_block self) vars spatial in
              let flow :=
                foldl (fun flow (b : ResidualBlock.t) =>
                         layer_call rt b vars flow)
                      lifted (LeelaZeroNet.residual_blocks self) in
              run rt (LeelaZeroNet.call self inputs) w
              = (log,
                 Ok ((TF.cast
                        (layer_call rt (LeelaZeroNet.policy_head self)
                                    vars flow) TF.float32,
                      TF.cast
                        (layer_call rt (LeelaZeroNet.value_head self)
                                    vars flow) TF.float32,
                      TF.cast
                        (layer_call rt (LeelaZeroNet.moves_left_head self)
                                    vars flow) TF.float32), w))
              /\ omap called_layer log
                 = [reshape_layer (LeelaZeroNet.input_reshape self);
                    conv_block (LeelaZeroNet.input_block self)]
                   ++ (residual_block <$> LeelaZeroNet.residual_blocks self)
                   ++ [policy_head_layer (LeelaZeroNet.policy_head self);
                       value_or_moves_left_head
                         (LeelaZeroNet.value_head self);
                       value_or_moves_left_head
                         (LeelaZeroNet.moves_left_head self)]
              /\ length log = (num_residual_blocks + 5)%nat
     | Raise ex =>
         run rt (LeelaZeroNet.call self inputs) w
         = ([Called (CallLayer (LeelaZeroNet.input_reshape self) inputs)],
            Raise ex)
     end.
Proof.
  intros self vars. split; [apply length_init_residual_blocks |].
  destruct (TF.reshape [112; 8; 8]%nat inputs) as [spatial | ex] eqn:Hre.
  - split; [apply (reshape_shape _ _ _ Hre) |].
    exists (forward_log rt self vars inputs spatial).
    split; [exact (run_call rt self inputs spatial w Hre) |].
    split; [apply forward_log_layers |].
    assert (Hlen : forall blocks flow,
               length (tower_log rt vars blocks flow) = length blocks).
    { induction blocks as [| b rest IH]; intros flow; simpl; auto. }
    unfold forward_log. rewrite !length_app, Hlen. unfold self.
    rewrite length_init_residual_blocks. simpl. lia.
  - exact (run_call_raise rt self inputs ex w Hre).
Qed.

End Forward.

Section Precision.

Context {ostate : Type} (rt : runtime ostate).

(** C5: whatever the layers compute in, and for every input the reshape
    accepts, the forward pass returns, and each of its three outputs is the
    head's output cast to float32: same shape, same entries, dtype float32.
    An input the reshape refuses yields no output at all. *)
Theorem outputs_are_float32
    (self : LeelaZeroNet.t) (inputs : TF.tensor) (w : world ostate) :
  match TF.reshape (Reshape.target_shape (LeelaZeroNet.input_reshape self))
                   inputs with
  | Ok spatial =>
      exists log policy_out value_out moves_left_out,
        run rt (LeelaZeroNet.call self inputs) w
        = (log, Ok ((policy_out, value_out, moves_left_out), w))
        /\ TF.dtype_of policy_out = TF.float32
        /\ TF.dtype_of value_out = TF.float32
        /\ TF.dtype_of moves_left_out = TF.float32
        /\ let flow := trunk rt self (variables w) spatial in
           policy_out
           = TF.cast (layer_call rt (LeelaZeroNet.policy_head self)
                                 (variables w) flow) TF.float32
           /\ value_out
              = TF.cast (layer_call rt (LeelaZeroNet.value_head self)
                                    (variables w) flow) TF.float32
           /\ moves_left_out
              = TF.cast (layer_call rt (LeelaZeroNet.moves_left_head self)
                                    (variables w) flow) TF.float32
  | Raise ex => (run rt (LeelaZeroNet.call self inputs) w).2 = Raise ex
  end.
Proof.
  destruct (TF.reshape _ inputs) as [spatial | ex] eqn:Hre.
  - eexists _, _, _, _. split.
    + exact (run_call rt self inputs spatial w Hre).
    + repeat split.
  - rewrite (run_call_raise rt self inputs ex w Hre). reflexivity.
Qed.

End Precision.

(** ** The training step *)

Section Step.

Context {ostate : Type} (rt : runtime ostate).

Lemma run_train_step_raise (self : LeelaZeroNet.t)
    (batch : TF.tensor * TF.tensor * TF.tensor * TF.tensor)
    (ex : exception) (w : world ostate) :
  TF.reshape (Reshape.target_shape (LeelaZeroNet.input_reshape self))
             batch.1.1.1 = Raise ex ->
  (run rt (LeelaZeroNet.train_step self batch) w).2 = Raise ex.
Proof.
  destruct batch as [[[inputs policy_target] wdl_target] moves_left_target].
  intros Hre. simpl in Hre.
  unfold LeelaZeroNet.train_step, mbind, prog_bind.
  rewrite run_bind, (run_call_raise rt self inputs ex w Hre). reflexivity.
Qed.

Lemma metrics_lookup (p v ml total : TF.scalar) :
  metrics p v ml total !! "policy_loss" = Some p
  /\ metrics p v ml total !! "value_loss" = Some v
  /\ metrics p v ml total !! "moves_left_loss" = Some ml
  /\ metrics p v ml total !! "loss" = Some total
  /\ dom (metrics p v ml total)
     = ({["policy_loss"; "value_loss"; "moves_left_loss"; "loss"]}
        : gset string).
Proof.
  unfold metrics. repeat split; by simplify_map_eq.
Qed.

(** C1: for every batch the reshape accepts and every weight triple given
    to the constructor, the step returns a dictionary with exactly the four
    entries policy_loss, value_loss, moves_left_loss and loss, holding the
    three component losses computed on that batch and their weighted sum
    w_p*policy_loss + w_v*value_loss + w_m*moves_left_loss. *)
Theorem total_loss_is_weighted_sum
    (num_filters num_residual_blocks se_ratio : nat) (constrain_norms : bool)
    (w_p w_v w_m : Q)
    (inputs policy_target wdl_target moves_left_target : TF.tensor)
    (w : world ostate) :
  let self :=
    LeelaZeroNet.init num_filters num_residual_blocks se_ratio
                      constrain_norms w_p w_v w_m in
  let step :=
    run rt (LeelaZeroNet.train_step self
              (inputs, policy_target, wdl_target, moves_left_target)) w in
  match TF.reshape [112; 8; 8]%nat inputs with
  | Ok spatial =>
      let '(policy_out, value_out, moves_left_out) :=
        heads rt self (variables w) (trunk rt self (variables w) spatial) in
      let p := loss_call rt policy_loss policy_target policy_out in
      let v := loss_call rt value_loss wdl_target value_out in
      let ml := loss_call rt moves_left_loss moves_left_target
                          moves_left_out in
      exists log reported total w',
        step = (log, Ok (reported, w'))
        /\ reported !! "policy_loss" = Some p
        /\ reported !! "value_loss" = Some v
        /\ reported !! "moves_left_loss" = Some ml
        /\ reported !! "loss" = Some total
        /\ dom reported
           = ({["policy_loss"; "value_loss"; "moves_left_loss"; "loss"]}
              : gset string)
        /\ total
           = TF.add (TF.add (TF.scale w_p p) (TF.scale w_v v))
                    (TF.scale w_m ml)
        /\ TF.value total
           = w_p * TF.value p + w_v * TF.value v + w_m * TF.value ml
  | Raise ex => step.2 = Raise ex
  end.
Proof.
  intros self step.
  destruct (TF.reshape [112; 8; 8]%nat inputs) as [spatial | ex] eqn:Hre.
  - destruct (heads rt self (variables w) (trunk rt self (variables w) spatial))
      as [[policy_out value_out] moves_left_out] eqn:Hheads.
    intros p v ml.
    assert (Hl : component_losses rt self (variables w) spatial policy_target
                   wdl_target moves_left_target = (p, v, ml)).
    { unfold component_losses. rewrite Hheads. reflexivity. }
    pose proof (run_train_step rt self inputs policy_target wdl_target
                  moves_left_target spatial w Hre p v ml Hl) as Hrun.
    simpl in Hrun. eexists _, _, _, _. split; [exact Hrun |].
    destruct (metrics_lookup p v ml (weighted_total w_p w_v w_m p v ml))
      as (H1 & H2 & H3 & H4 & H5).
    repeat split; assumption.
  - apply (run_train_step_raise self (inputs, policy_target, wdl_target,
                                       moves_left_target) ex w Hre).
Qed.

End Step.

Section Gradients.

Context {ostate : Type} (rt : runtime ostate).

Lemma tower_log_plain (vars : list Q) (blocks : list ResidualBlock.t)
    (flow : TF.tensor) :
  List.filter is_scaling (tower_log rt vars blocks flow) = []
  /\ List.filter is_differentiation (tower_log rt vars blocks flow) = [].
Proof.
  revert flow. induction blocks as [| b rest IH]; intros flow; simpl.
  - split; reflexivity.
  - apply IH.
Qed.

Lemma forward_log_plain (self : LeelaZeroNet.t) (vars : list Q)
    (inputs spatial : TF.tensor) :
  List.filter is_scaling (forward_log rt self vars inputs spatial) = []
  /\ List.filter is_differentiation
       (forward_log rt self vars inputs spatial) = [].
Proof.
  unfold forward_log. rewrite !List.filter_app.
  destruct (tower_log_plain vars (LeelaZeroNet.residual_blocks self)
              (layer_call rt (LeelaZeroNet.input_block self) vars spatial))
    as [-> ->].
  split; reflexivity.
Qed.

Lemma losses_log_plain (self : LeelaZeroNet.t) (vars : list Q)
    (spatial policy_target wdl_target moves_left_target : TF.tensor) :
  List.filter is_scaling
    (losses_log rt self vars spatial policy_target wdl_target
                moves_left_target) = []
  /\ List.filter is_differentiation
       (losses_log rt self vars spatial policy_target wdl_target
                   moves_left_target) = [].
Proof.
  unfold losses_log.
  destruct (heads rt self vars (trunk rt self vars spatial)) as [[? ?] ?].
  split; reflexivity.
Qed.

(** C2: on every step the log of requests ends in one of two ways, chosen
    by the global precision policy and by nothing else.  Under
    "mixed_float16" the total loss is handed to the optimizer for scaling,
    the scaled loss is differentiated, the gradients are handed back for
    unscaling and the unscaled gradients are applied.  Under any other
    policy the total loss itself is differentiated and those gradients are
    applied.  Nothing before that point scales, unscales or
    differentiates. *)
Theorem gradient_path_follows_precision
    (self : LeelaZeroNet.t)
    (inputs policy_target wdl_target moves_left_target : TF.tensor)
    (w : world ostate) :
  let step :=
    run rt (LeelaZeroNet.train_step self
              (inputs, policy_target, wdl_target, moves_left_target)) w in
  match TF.reshape (Reshape.target_shape (LeelaZeroNet.input_reshape self))
                   inputs with
  | Ok spatial =>
      let '(p, v, ml) :=
        component_losses rt self (variables w) spatial policy_target
                         wdl_target moves_left_target in
      let total_loss :=
        weighted_total (LeelaZeroNet.policy_loss_weight self)
                       (LeelaZeroNet.value_loss_weight self)
                       (LeelaZeroNet.moves_left_loss_weight self) p v ml in
      let os := optimizer_state w in
      let refs := seq 0 (length (variables w)) in
      exists before outcome,
        List.filter is_scaling before = []
        /\ List.filter is_differentiation before = []
        /\ if String.eqb (global_policy w) "mixed_float16" then
             let scaled_loss := get_scaled_loss rt os total_loss in
             let scaled_gradients := tape_gradient scaled_loss refs in
             let gradients :=
               get_unscaled_gradients rt os scaled_gradients in
             step
             = (before
                ++ [Called (GetScaledLoss total_loss);
                    Called TrainableVariables;
                    Called (TapeGradient scaled_loss refs);
                    Called (GetUnscaledGradients scaled_gradients);
                    Called TrainableVariables;
                    Called (ApplyGradients (zip gradients refs))],
                Ok outcome)
           else
             let gradients := tape_gradient total_loss refs in
             step
             = (before
                ++ [Called TrainableVariables;
                    Called (TapeGradient total_loss refs);
                    Called TrainableVariables;
                    Called (ApplyGradients (zip gradients refs))],
                Ok outcome)
  | Raise ex => step.2 = Raise ex
  end.
Proof.
  intros step.
  destruct (TF.reshape _ inputs) as [spatial | ex] eqn:Hre.
  - destruct (component_losses rt self (variables w) spatial policy_target
                wdl_target moves_left_target) as [[p v] ml] eqn:Hl.
    intros total_loss os refs.
    pose proof (run_train_step rt self inputs policy_target wdl_target
                  moves_left_target spatial w Hre p v ml Hl) as Hrun.
    cbv zeta in Hrun. fold total_loss refs in Hrun. unfold step.
    exists (forward_log rt self (variables w) inputs spatial
            ++ losses_log rt self (variables w) spatial policy_target
                          wdl_target moves_left_target
            ++ [Called GlobalPolicyName]).
    exists (metrics p v ml total_loss,
            updated rt w (step_gradients rt w total_loss)).
    destruct (forward_log_plain self (variables w) inputs spatial)
      as [Hf1 Hf2].
    destruct (losses_log_plain self (variables w) spatial policy_target
                wdl_target moves_left_target) as [Hl1 Hl2].
    rewrite !List.filter_app, Hf1, Hf2, Hl1, Hl2.
    split; [reflexivity |]. split; [reflexivity |].
    rewrite Hrun. unfold gradients_log, step_gradients.
    destruct (String.eqb (global_policy w) "mixed_float16");
      rewrite <- !app_assoc; reflexivity.
  - apply (run_train_step_raise rt self
             (inputs, policy_target, wdl_target, moves_left_target)
             ex w Hre).
Qed.

Lemma updated_is_apply_gradients (w : world ostate)
    (gradients : list TF.gradient) :
  (optimizer_state (updated rt w gradients),
   variables (updated rt w gradients))
  = apply_gradients rt (optimizer_state w)
      (zip gradients (seq 0 (length (variables w)))) (variables w).
Proof.
  unfold updated. destruct (apply_gradients rt _ _ _). reflexivity.
Qed.

Lemma tower_log_no_update (vars : list Q) (blocks : list ResidualBlock.t)
    (flow : TF.tensor) :
  List.filter is_update (tower_log rt vars blocks flow) = [].
Proof.
  revert flow. induction blocks as [| b rest IH]; intros flow; simpl.
  - reflexivity.
  - apply IH.
Qed.

Lemma no_update_before_the_last (self : LeelaZeroNet.t) (w : world ostate)
    (inputs spatial policy_target wdl_target moves_left_target : TF.tensor)
    (total : TF.scalar) :
  List.filter is_update
    (forward_log rt self (variables w) inputs spatial
     ++ losses_log rt self (variables w) spatial policy_target wdl_target
                   moves_left_target
     ++ [Called GlobalPolicyName]
     ++ gradients_log rt w total
     ++ [Called TrainableVariables]) = [].
Proof.
  unfold forward_log, losses_log, gradients_log.
  destruct (heads rt self (variables w) (trunk rt self (variables w) spatial))
    as [[? ?] ?].
  rewrite !List.filter_app, tower_log_no_update.
  destruct (String.eqb (global_policy w) "mixed_float16"); reflexivity.
Qed.

Lemma run_train_step_update (self : LeelaZeroNet.t)
    (inputs policy_target wdl_target moves_left_target spatial : TF.tensor)
    (w : world ostate) (p v ml : TF.scalar) :
  TF.reshape (Reshape.target_shape (LeelaZeroNet.input_reshape self)) inputs
    = Ok spatial ->
  component_losses rt self (variables w) spatial policy_target wdl_target
                   moves_left_target = (p, v, ml) ->
  let total :=
    weighted_total (LeelaZeroNet.policy_loss_weight self)
                   (LeelaZeroNet.value_loss_weight self)
                   (LeelaZeroNet.moves_left_loss_weight self) p v ml in
  let gradients := step_gradients rt w total in
  exists before,
    run rt (LeelaZeroNet.train_step self
              (inputs, policy_target, wdl_target, moves_left_target)) w
    = (before
       ++ [Called (ApplyGradients
                     (zip gradients (seq 0 (length (variables w)))))],
       Ok (metrics p v ml total, updated rt w gradients))
    /\ List.filter is_update before = [].
Proof.
  intros Hre Hl total gradients.
  pose proof (run_train_step rt self inputs policy_target wdl_target
                moves_left_target spatial w Hre p v ml Hl) as Hrun.
  cbv zeta in Hrun. fold total in Hrun. fold gradients in Hrun.
  eexists. split.
  - rewrite Hrun. unfold update_log. f_equal.
    change [Called TrainableVariables; ?c]
      with ([Called TrainableVariables] ++ [c]).
    rewrite !app_assoc. reflexivity.
  - rewrite <- !app_assoc.
    apply (no_update_before_the_last self w inputs spatial policy_target
             wdl_target moves_left_target total).
Qed.


Lemma zero_scale (w : Q) (l : list Q) :
  w == 0 -> Forall (fun q => q == 0) (Qmult w <$> l).
Proof.
  intros Hw. apply Forall_fmap, Forall_forall. intros q _. simpl.
  rewrite Hw. ring.
Qed.

Lemma zero_add (l k : list Q) :
  Forall (fun q => q == 0) l -> Forall (fun q => q == 0) k ->
  Forall (fun q => q == 0) (zip_with Qplus l k).
Proof.
  intros Hl. revert k. induction Hl as [| q l Hq Hl IH]; intros k Hk.
  - constructor.
  - destruct Hk as [| r k Hr Hk]; simpl; constructor.
    + rewrite Hq, Hr. ring.
    + apply IH, Hk.
Qed.

Lemma zero_tape_gradient (target : TF.scalar) (sources : list var) :
  Forall (fun q => q == 0) (TF.grad target) ->
  Forall is_zero (tape_gradient target sources).
Proof.
  intros Hz. unfold tape_gradient. apply Forall_fmap, Forall_forall.
  intros i _. simpl.
  destruct (decide (i < length (TF.grad target))%nat) as [Hi | Hi].
  - rewrite Forall_forall in Hz. apply Hz, list_elem_of_In, nth_In, Hi.
  - rewrite nth_overflow by lia. reflexivity.
Qed.

(** C7: with all three weights 0 at construction, a step on any batch the
    reshape accepts reports a total loss of 0 whose derivative along every
    variable is 0.  The step's last request hands the optimizer its
    gradients: in full precision one gradient per variable, every one of
    them 0; under "mixed_float16" what the optimizer made of them by
    scaling and unscaling.  The variables after the step are the ones
    [apply_gradients] returned for that request; the step itself adds no
    test for a vanishing gradient. *)
Theorem zero_weights_give_zero_gradients
    (num_filters num_residual_blocks se_ratio : nat) (constrain_norms : bool)
    (inputs policy_target wdl_target moves_left_target spatial : TF.tensor)
    (w : world ostate) :
  let self :=
    LeelaZeroNet.init num_filters num_residual_blocks se_ratio
                      constrain_norms 0 0 0 in
  TF.reshape [112; 8; 8]%nat inputs = Ok spatial ->
  let refs := seq 0 (length (variables w)) in
  exists before reported total gradients w',
    run rt (LeelaZeroNet.train_step self
              (inputs, policy_target, wdl_target, moves_left_target)) w
    = (before ++ [Called (ApplyGradients (zip gradients refs))],
       Ok (reported, w'))
    /\ List.filter is_update before = []
    /\ reported !! "loss" = Some total
    /\ TF.value total == 0
    /\ Forall (fun q => q == 0) (TF.grad total)
    /\ (if String.eqb (global_policy w) "mixed_float16"
        then gradients = scaled_path rt (optimizer_state w) total refs
        else gradients = tape_gradient total refs
             /\ length gradients = length (variables w)
             /\ Forall is_zero gradients)
    /\ (optimizer_state w', variables w')
       = apply_gradients rt (optimizer_state w) (zip gradients refs)
                         (variables w).
Proof.
  intros self Hre refs.
  destruct (component_losses rt self (variables w) spatial policy_target
              wdl_target moves_left_target) as [[p v] ml] eqn:Hl.
  destruct (run_train_step_update self inputs policy_target wdl_target
              moves_left_target spatial w p v ml Hre Hl)
    as (before & Hrun & Hbefore).
  cbv zeta in Hrun. simpl LeelaZeroNet.policy_loss_weight in Hrun.
  simpl LeelaZeroNet.value_loss_weight in Hrun.
  simpl LeelaZeroNet.moves_left_loss_weight in Hrun.
  set (total := weighted_total 0 0 0 p v ml) in *.
  assert (Hgrad : Forall (fun q => q == 0) (TF.grad total)).
  { unfold total, weighted_total. simpl.
    repeat apply zero_add; apply zero_scale; reflexivity. }
  exists before, (metrics p v ml total), total, (step_gradients rt w total),
    (updated rt w (step_gradients rt w total)).
  split; [exact Hrun |]. split; [exact Hbefore |].
  split; [apply metrics_lookup |].
  split; [unfold total; simpl; ring |].
  split; [exact Hgrad |].
  split; [| apply updated_is_apply_gradients].
  unfold step_gradients. fold refs.
  destruct (String.eqb (global_policy w) "mixed_float16"); [reflexivity |].
  split; [reflexivity |]. split.
  - unfold direct_path, tape_gradient, refs.
    rewrite length_fmap, length_seq. reflexivity.
  - apply zero_tape_gradient, Hgrad.
Qed.

End Gradients.

(** ** The heads, on the layers of §4 *)

Section Heads.

Context {ostate : Type} (rt : runtime ostate) (k : Layers.kernel).
Hypothesis layers_as_specified : layer_call rt = Layers.call k.

Lemma length_units (f : nat -> nat -> TF.scalar) (b n : nat) :
  length (Layers.units f b n) = (b * n)%nat.
Proof.
  unfold Layers.units. generalize 0%nat at 2.
  induction b as [| b IH]; intros start; simpl.
  - reflexivity.
  - rewrite length_app, length_fmap, length_seq, IH. reflexivity.
Qed.

Lemma relu_non_negative (l : list TF.scalar) :
  Forall (fun s => 0 <= TF.value s) (TF.relu <$> l).
Proof.
  apply Forall_fmap, Forall_forall. intros s _. simpl. unfold TF.relu.
  destruct (Qle_bool 0 (TF.value s)) eqn:Hs; simpl.
  - apply Qle_bool_iff, Hs.
  - apply Qle_refl.
Qed.

Lemma head_shape (h : ConvolutionalValueOrMovesLeftHead.t) (vars : list Q)
    (x : TF.tensor) :
  TF.shape (Layers.value_or_moves_left k h vars x)
  = [Layers.batch x; ConvolutionalValueOrMovesLeftHead.output_dim h]
  /\ length (TF.data (Layers.value_or_moves_left k h vars x))
     = (Layers.batch x * ConvolutionalValueOrMovesLeftHead.output_dim h)%nat.
Proof.
  unfold Layers.value_or_moves_left.
  destruct (ConvolutionalValueOrMovesLeftHead.relu h); simpl;
    rewrite ?length_fmap, length_units; split; reflexivity.
Qed.

Lemma policy_shape (h : ConvolutionalPolicyHead.t) (vars : list Q)
    (x : TF.tensor) :
  TF.shape (Layers.policy k h vars x) = [Layers.batch x; Layers.move_space k]
  /\ length (TF.data (Layers.policy k h vars x))
     = (Layers.batch x * Layers.move_space k)%nat.
Proof. simpl. rewrite length_units. split; reflexivity. Qed.

Lemma tower_batch (vars : list Q) (blocks : list ResidualBlock.t)
    (flow : TF.tensor) :
  Layers.batch (tower rt vars blocks flow) = Layers.batch flow.
Proof.
  unfold tower. revert flow.
  induction blocks as [| b rest IH]; intros flow; simpl; [reflexivity |].
  rewrite IH, layers_as_specified. reflexivity.
Qed.

Lemma trunk_batch (self : LeelaZeroNet.t) (vars : list Q)
    (inputs spatial : TF.tensor) :
  TF.reshape (Reshape.target_shape (LeelaZeroNet.input_reshape self)) inputs
    = Ok spatial ->
  Layers.batch (trunk rt self vars spatial) = hd 0%nat (TF.shape inputs).
Proof.
  intros Hre. unfold trunk. rewrite tower_batch, layers_as_specified.
  simpl. unfold Layers.conv_norm, Layers.batch. simpl.
  destruct (reshape_shape _ _ _ Hre) as [-> _]. reflexivity.
Qed.

(** C6: on the layers as §4.5 describes them, for every input the reshape
    accepts the moves-left head, built with relu=True, returns one scalar
    per sample and each of them is >= 0; the value head, built with
    relu=False, returns three per sample, and they are the final
    projection's own outputs, passed through without any clamp. *)
Theorem moves_left_is_clamped
    (num_filters num_residual_blocks se_ratio : nat) (constrain_norms : bool)
    (w_p w_v w_m : Q) (inputs : TF.tensor) (w : world ostate) :
  let self :=
    LeelaZeroNet.init num_filters num_residual_blocks se_ratio
                      constrain_norms w_p w_v w_m in
  let samples := hd 0%nat (TF.shape inputs) in
  match TF.reshape [112; 8; 8]%nat inputs with
  | Ok spatial =>
      exists log policy_out value_out moves_left_out,
        run rt (LeelaZeroNet.call self inputs) w
        = (log, Ok ((policy_out, value_out, moves_left_out), w))
        /\ ConvolutionalValueOrMovesLeftHead.relu
             (LeelaZeroNet.moves_left_head self) = true
        /\ TF.shape moves_left_out = [samples; 1%nat]
        /\ length (TF.data moves_left_out) = samples
        /\ Forall (fun s => 0 <= TF.value s) (TF.data moves_left_out)
        /\ ConvolutionalValueOrMovesLeftHead.relu
             (LeelaZeroNet.value_head self) = false
        /\ TF.shape value_out = [samples; 3%nat]
        /\ value_out
           = TF.cast
               (Layers.projection k (LeelaZeroNet.value_head self)
                  (variables w) (trunk rt self (variables w) spatial))
               TF.float32
  | Raise ex => (run rt (LeelaZeroNet.call self inputs) w).2 = Raise ex
  end.
Proof.
  intros self samples.
  destruct (TF.reshape [112; 8; 8]%nat inputs) as [spatial | ex] eqn:Hre.
  - eexists _, _, _, _.
    split; [exact (run_call rt self inputs spatial w Hre) |].
    pose proof (trunk_batch self (variables w) inputs spatial Hre) as Hb.
    fold samples in Hb.
    rewrite layers_as_specified.
    destruct (head_shape (LeelaZeroNet.moves_left_head self) (variables w)
                (trunk rt self (variables w) spatial)) as [Hs Hlen].
    destruct (head_shape (LeelaZeroNet.value_head self) (variables w)
                (trunk rt self (variables w) spatial)) as [Hvs _].
    rewrite Hb in Hs, Hlen, Hvs.
    split; [reflexivity |].
    split; [exact Hs |].
    split; [etransitivity; [exact Hlen | simpl; lia] |].
    split.
    { exact (relu_non_negative
               (TF.data (Layers.projection k
                           (LeelaZeroNet.moves_left_head self) (variables w)
                           (trunk rt self (variables w) spatial)))). }
    split; [reflexivity |].
    split; [exact Hvs | reflexivity].
  - rewrite (run_call_raise rt self inputs ex w Hre). reflexivity.
Qed.

(** C8: built with num_residual_blocks = 0, the network holds no residual
    block; its forward pass calls the reshape, the input block and the
    three heads and nothing else, the heads taking the input block's
    output; and on the layers as §4 describes them the outputs keep their
    shapes: the move space, 3 and 1 entries per sample. *)
Theorem no_residual_blocks
    (num_filters se_ratio : nat) (constrain_norms : bool)
    (w_p w_v w_m : Q) (inputs : TF.tensor) (w : world ostate) :
  let self :=
    LeelaZeroNet.init num_filters 0 se_ratio constrain_norms w_p w_v w_m in
  let samples := hd 0%nat (TF.shape inputs) in
  let vars := variables w in
  LeelaZeroNet.residual_blocks self = []
  /\ match TF.reshape [112; 8; 8]%nat inputs with
     | Ok spatial =>
         let lifted :=
           layer_call rt (LeelaZeroNet.input_block self) vars spatial in
         exists log policy_out value_out moves_left_out,
           run rt (LeelaZeroNet.call self inputs) w
           = (log, Ok ((policy_out, value_out, moves_left_out), w))
           /\ omap called_layer log
              = [reshape_layer (LeelaZeroNet.input_reshape self);
                 conv_block (LeelaZeroNet.input_block self);
                 policy_head_layer (LeelaZeroNet.policy_head self);
                 value_or_moves_left_head (LeelaZeroNet.value_head self);
                 value_or_moves_left_head
                   (LeelaZeroNet.moves_left_head self)]
           /\ policy_out
              = TF.cast (layer_call rt (LeelaZeroNet.policy_head self)
                                    vars lifted) TF.float32
           /\ value_out
              = TF.cast (layer_call rt (LeelaZeroNet.value_head self)
                                    vars lifted) TF.float32
           /\ moves_left_out
              = TF.cast (layer_call rt (LeelaZeroNet.moves_left_head self)
                                    vars lifted) TF.float32
           /\ TF.shape lifted = [samples; num_filters; 8; 8]%nat
           /\ TF.shape policy_out = [samples; Layers.move_space k]
           /\ length (TF.data policy_out)
              = (samples * Layers.move_space k)%nat
           /\ TF.shape value_out = [samples; 3%nat]
           /\ length (TF.data value_out) = (samples * 3)%nat
           /\ TF.shape moves_left_out = [samples; 1%nat]
           /\ length (TF.data moves_left_out) = (samples * 1)%nat
     | Raise ex => (run rt (LeelaZeroNet.call self inputs) w).2 = Raise ex
     end.
Proof.
  intros self samples vars. split; [reflexivity |].
  destruct (TF.reshape [112; 8; 8]%nat inputs) as [spatial | ex] eqn:Hre.
  - intros lifted. eexists _, _, _, _.
    split; [exact (run_call rt self inputs spatial w Hre) |].
    split; [apply forward_log_layers |].
    change (trunk rt self (variables w) spatial) with lifted.
    do 3 (split; [reflexivity |]).
    destruct (reshape_shape _ _ _ Hre) as (Hshape & _ & _).
    assert (Hlifted : TF.shape lifted = [samples; num_filters; 8; 8]%nat).
    { unfold lifted. rewrite layers_as_specified. simpl.
      unfold Layers.batch. rewrite Hshape. reflexivity. }
    assert (Hb : Layers.batch lifted = samples).
    { unfold Layers.batch. rewrite Hlifted. reflexivity. }
    split; [exact Hlifted |].
    rewrite layers_as_specified. simpl Layers.call. simpl TF.shape.
    simpl TF.data.
    destruct (policy_shape (LeelaZeroNet.policy_head self) vars lifted)
      as [Hps Hpl].
    destruct (head_shape (LeelaZeroNet.value_head self) vars lifted)
      as [Hvs Hvl].
    destruct (head_shape (LeelaZeroNet.moves_left_head self) vars lifted)
      as [Hms Hml].
    rewrite Hb in Hps, Hpl, Hvs, Hvl, Hms, Hml.
    repeat split; assumption.
  - rewrite (run_call_raise rt self inputs ex w Hre). reflexivity.
Qed.

End Heads.

(** ** The learning-rate schedule *)

Section Schedule.

Lemma py_max_is_max (a b : Q) : Py.max a b == Qmax a b.
Proof.
  unfold Py.max. destruct (Qle_bool b a) eqn:Hba.
  - apply Qle_bool_iff in Hba. symmetry. apply Q.max_l, Hba.
  - symmetry. apply Q.max_r. apply Qlt_le_weak, Qnot_le_lt.
    intros Hle. apply Qle_bool_iff in Hle. congruence.
Qed.

Lemma inject_Z_nonzero (b : Z) : b <> 0%Z -> ~ inject_Z b == 0.
Proof.
  intros Hb H. apply Hb. unfold Qeq in H. simpl in H. lia.
Qed.

Lemma float_of_int_in_range (n : Z) :
  (Z.abs n < Py.float_limit)%Z -> Py.float_of_int n = Ok (inject_Z n).
Proof.
  intros Hn. unfold Py.float_of_int.
  destruct (Z.leb_spec Py.float_limit (Z.abs n)); [lia | reflexivity].
Qed.

Lemma float_of_int_overflow (n : Z) :
  (Py.float_limit <= Z.abs n)%Z -> Py.float_of_int n = Raise OverflowError.
Proof.
  intros Hn. unfold Py.float_of_int.
  destruct (Z.leb_spec Py.float_limit (Z.abs n)); [reflexivity | lia].
Qed.

(** With a non-negative number of reductions the schedule is decided by
    the int [factor ^ reductions]. *)
Lemma scheduler_by_power (starting_lr : Q) (every factor : Z) (min_lr : Q)
    (epoch : Z) :
  every <> 0%Z -> (0 <= epoch / every)%Z ->
  Train.scheduler starting_lr every factor min_lr epoch
  = (lr ← Py.truediv_by starting_lr (Py.Int (factor ^ (epoch / every)));
     Ok (Py.max_float min_lr lr)).
Proof.
  intros Hevery Hk. unfold Train.scheduler, Py.floordiv.
  apply Z.eqb_neq in Hevery. rewrite Hevery.
  change (Ok (epoch / every)%Z ≫= ?f) with (f (epoch / every)%Z).
  cbv beta. unfold Py.pow.
  apply Z.leb_le in Hk. rewrite Hk. reflexivity.
Qed.

Lemma scheduler_formula (starting_lr : Q) (every factor : Z) (min_lr : Q)
    (epoch : Z) :
  every <> 0%Z -> (0 <= epoch / every)%Z -> factor <> 0%Z ->
  (Z.abs (factor ^ (epoch / every)) < Py.float_limit)%Z ->
  exists lr,
    Train.scheduler starting_lr every factor min_lr epoch
    = Ok (Py.Finite lr)
    /\ lr == Train.schedule_formula starting_lr every factor min_lr epoch.
Proof.
  intros Hevery Hk Hfactor Hrange.
  rewrite scheduler_by_power by assumption.
  unfold Py.truediv_by. rewrite float_of_int_in_range by exact Hrange.
  change (Ok ?y ≫= ?f) with (f y). cbv beta.
  destruct (Qeq_bool (inject_Z (factor ^ (epoch / every))) 0) eqn:Hz.
  - exfalso. apply Qeq_bool_iff in Hz. revert Hz.
    apply inject_Z_nonzero, Z.pow_nonzero; assumption.
  - change (Ok ?y ≫= ?f) with (f y). cbv beta.
    eexists. split; [reflexivity |].
    unfold Train.schedule_formula.
    rewrite py_max_is_max, Zpower_Qpower by exact Hk. reflexivity.
Qed.

Lemma scheduler_overflow (starting_lr : Q) (every factor : Z) (min_lr : Q)
    (epoch : Z) :
  every <> 0%Z -> (0 <= epoch / every)%Z ->
  (Py.float_limit <= Z.abs (factor ^ (epoch / every)))%Z ->
  Train.scheduler starting_lr every factor min_lr epoch
  = Raise OverflowError.
Proof.
  intros Hevery Hk Hrange.
  rewrite scheduler_by_power by assumption.
  unfold Py.truediv_by. rewrite float_of_int_overflow by exact Hrange.
  reflexivity.
Qed.

Lemma quotient_antitone (s a b : Q) :
  0 <= s -> 0 < a -> a <= b -> s / b <= s / a.
Proof.
  intros Hs Ha Hab.
  assert (Hb : 0 < b) by (eapply Qlt_le_trans; eassumption).
  apply Qle_shift_div_r; [exact Hb |].
  assert (Hsa : 0 <= s / a).
  { apply Qle_shift_div_l; [exact Ha |]. rewrite Qmult_0_l. exact Hs. }
  assert (E : s / a * a == s).
  { field. intros H. rewrite H in Ha. apply (Qlt_irrefl 0 Ha). }
  apply Qle_trans with (s / a * a).
  - rewrite E. apply Qle_refl.
  - rewrite !(Qmult_comm (s / a)).
    apply Qmult_le_compat_r; assumption.
Qed.

(** C10, as amended: for every epoch >= 0, every reduction period >= 1 and
    every non-zero reduction factor whose power
    factor^(epoch // period) still converts to a float (its magnitude is
    below 2^1024 - 2^970), the schedule returns
    max(min_learning_rate, starting_lr / factor^(epoch // period)), which
    is at least min_learning_rate; and when moreover the factor is >= 1 and
    the starting rate is >= 0, every earlier epoch returned a rate that is
    no smaller. *)
Theorem schedule_is_floored_decay
    (starting_lr : Q) (reduce_lr_every_n_epochs reduce_lr_factor : Z)
    (min_learning_rate : Q) (epoch : Z) :
  (0 <= epoch)%Z ->
  (1 <= reduce_lr_every_n_epochs)%Z ->
  reduce_lr_factor <> 0%Z ->
  (Z.abs (reduce_lr_factor ^ (epoch / reduce_lr_every_n_epochs))
   < Py.float_limit)%Z ->
  let schedule :=
    Train.get_schedule_function starting_lr reduce_lr_every_n_epochs
                                reduce_lr_factor min_learning_rate in
  exists lr,
    schedule epoch = Ok (Py.Finite lr)
    /\ lr == Train.schedule_formula starting_lr reduce_lr_every_n_epochs
               reduce_lr_factor min_learning_rate epoch
    /\ min_learning_rate <= lr
    /\ ((1 <= reduce_lr_factor)%Z ->
        0 <= starting_lr ->
        forall earlier, (0 <= earlier <= epoch)%Z ->
          exists lr', schedule earlier = Ok (Py.Finite lr') /\ lr <= lr').
Proof.
  intros Hepoch Hevery Hfactor Hrange schedule.
  assert (Hk : (0 <= epoch / reduce_lr_every_n_epochs)%Z)
    by (apply Z.div_pos; lia).
  destruct (scheduler_formula starting_lr reduce_lr_every_n_epochs
              reduce_lr_factor min_learning_rate epoch)
    as (lr & Hrun & Hlr); [lia | exact Hk | exact Hfactor | exact Hrange |].
  exists lr. split; [exact Hrun |]. split; [exact Hlr |].
  split.
  { rewrite Hlr. apply Q.le_max_l. }
  intros Hf Hs earlier Hearlier.
  assert (Hk' : (0 <= earlier / reduce_lr_every_n_epochs)%Z)
    by (apply Z.div_pos; lia).
  assert (Hkk : (earlier / reduce_lr_every_n_epochs
                 <= epoch / reduce_lr_every_n_epochs)%Z)
    by (apply Z.div_le_mono; lia).
  assert (Hpow : (reduce_lr_factor ^ (earlier / reduce_lr_every_n_epochs)
                  <= reduce_lr_factor ^ (epoch / reduce_lr_every_n_epochs))%Z)
    by (apply Z.pow_le_mono_r; lia).
  assert (Hpos : (0 < reduce_lr_factor
                        ^ (earlier / reduce_lr_every_n_epochs))%Z)
    by (apply Z.pow_pos_nonneg; lia).
  destruct (scheduler_formula starting_lr reduce_lr_every_n_epochs
              reduce_lr_factor min_learning_rate earlier)
    as (lr' & Hrun' & Hlr'); [lia | exact Hk' | exact Hfactor | lia |].
  exists lr'. split; [exact Hrun' |].
  rewrite Hlr, Hlr'. unfold Train.schedule_formula.
  apply Q.max_le_compat_l.
  assert (Hq : 1 <= inject_Z reduce_lr_factor).
  { change 1 with (inject_Z 1). rewrite <- Zle_Qle. exact Hf. }
  apply quotient_antitone.
  - exact Hs.
  - apply Qpower_0_lt. eapply Qlt_le_trans; [| exact Hq]. reflexivity.
  - apply Qpower_le_compat_l; [exact Hkk | exact Hq].
Qed.

End Schedule.

(** ** The step count *)

Section StepCount.

Lemma count_game_sum (moves : Q) (game : gmap string Train.json) :
  Train.tcn_sized game ->
  exists m, Train.count_game moves game = Ok m
            /\ m == moves + Train.half_moves game.
Proof.
  intros Hsized. unfold Train.count_game, Train.half_moves.
  destruct (game !! "tcn") as [tcn |] eqn:Htcn.
  - destruct (Hsized tcn Htcn) as [n Hn]. rewrite Hn. simpl.
    eexists. split; reflexivity.
  - eexists. split; [reflexivity |]. ring.
Qed.

Lemma Qsum_cons (q : Q) (l : list Q) :
  Train.Qsum (q :: l) = q + Train.Qsum l.
Proof. reflexivity. Qed.

Lemma Qsum_app (l k : list Q) :
  Train.Qsum (l ++ k) == Train.Qsum l + Train.Qsum k.
Proof.
  induction l as [| q l IH].
  - change (Train.Qsum []) with 0. rewrite Qplus_0_l. reflexivity.
  - rewrite <- app_comm_cons, !Qsum_cons, IH. ring.
Qed.

Lemma count_games_sum (moves : Q) (games : list (gmap string Train.json)) :
  Forall Train.tcn_sized games ->
  exists m, Train.count_games moves games = Ok m
            /\ m == moves + Train.Qsum (Train.half_moves <$> games).
Proof.
  intros Hsized. revert moves.
  induction Hsized as [| game rest Hgame _ IH]; intros moves.
  - exists moves. split; [reflexivity |].
    change (Train.Qsum (Train.half_moves <$> [])) with 0.
    rewrite Qplus_0_r. reflexivity.
  - destruct (count_game_sum moves game Hgame) as (m1 & E1 & Hm1).
    destruct (IH m1) as (m & E & Hm).
    exists m. split.
    + cbn [Train.count_games]. rewrite E1. exact E.
    + rewrite fmap_cons, Qsum_cons, Hm, Hm1. ring.
Qed.

Lemma count_files_sum (moves : Q)
    (files : list (list (gmap string Train.json))) :
  Forall (Forall Train.tcn_sized) files ->
  exists m, Train.count_files moves files = Ok m
            /\ m == moves + Train.Qsum (Train.half_moves <$> concat files).
Proof.
  intros Hsized. revert moves.
  induction Hsized as [| games rest Hgames _ IH]; intros moves.
  - exists moves. split; [reflexivity |].
    change (Train.Qsum (Train.half_moves <$> concat [])) with 0.
    rewrite Qplus_0_r. reflexivity.
  - destruct (count_games_sum moves games Hgames) as (m1 & E1 & Hm1).
    destruct (IH m1) as (m & E & Hm).
    exists m. split.
    + cbn [Train.count_files]. rewrite E1. exact E.
    + cbn [concat]. rewrite fmap_app, Qsum_app, Hm, Hm1. ring.
Qed.

Lemma half_moves_non_negative (game : gmap string Train.json) :
  0 <= Train.half_moves game.
Proof.
  unfold Train.half_moves.
  destruct (game !! "tcn") as [tcn |]; [| apply Qle_refl].
  destruct (Train.len tcn) as [n |]; [| apply Qle_refl].
  apply Qle_shift_div_l; [reflexivity |]. rewrite Qmult_0_l.
  change 0 with (inject_Z 0). rewrite <- Zle_Qle. lia.
Qed.

Lemma Qsum_non_negative (l : list Q) :
  Forall (fun q => 0 <= q) l -> 0 <= Train.Qsum l.
Proof.
  induction 1 as [| q l Hq _ IH].
  - apply Qle_refl.
  - rewrite Qsum_cons.
    apply Qle_trans with (0 + 0); [apply Qle_refl |].
    apply Qplus_le_compat; assumption.
Qed.

Lemma int_is_floor (q : Q) : 0 <= q -> Py.int q = Qfloor q.
Proof.
  destruct q as [n d]. unfold Qle, Py.int, Qfloor. simpl. intros Hn.
  apply Z.quot_div_nonneg; lia.
Qed.

(** C9: for a positive batch size, and game records whose "tcn" fields are
    sized values, the steps-per-epoch value is the floor of (the sum, over
    all loaded records that have a "tcn" field, of len(tcn)/2) divided by
    the batch size; records without the field add nothing. *)
Theorem steps_per_epoch_is_halved_sum
    (files : list (list (gmap string Train.json))) (batch_size : Z) :
  (0 < batch_size)%Z ->
  Forall (Forall Train.tcn_sized) files ->
  Train.steps_per_epoch files batch_size
  = Ok (Train.steps_formula files batch_size).
Proof.
  intros Hbatch Hsized. unfold Train.steps_per_epoch, Train.steps_formula.
  destruct (count_files_sum 0 files Hsized) as (moves & -> & Hmoves). simpl.
  rewrite Qplus_0_l in Hmoves.
  assert (Hb : 0 < inject_Z batch_size).
  { change 0 with (inject_Z 0). rewrite <- Zlt_Qlt. exact Hbatch. }
  unfold Py.truediv. destruct (Qeq_bool (inject_Z batch_size) 0) eqn:Hz.
  { apply Qeq_bool_iff in Hz. rewrite Hz in Hb.
    destruct (Qlt_irrefl 0 Hb). }
  simpl. f_equal.
  rewrite int_is_floor.
  - rewrite Hmoves. reflexivity.
  - apply Qle_shift_div_l; [exact Hb |]. rewrite Qmult_0_l, Hmoves.
    apply Qsum_non_negative, Forall_fmap, Forall_forall.
    intros game _. apply half_moves_non_negative.
Qed.

End StepCount.

(** ** The small configuration, run *)

Lemma example_reshape :
  TF.reshape [112; 8; 8]%nat Example.planes = Ok Example.spatial.
Proof. vm_compute. reflexivity. Qed.

Lemma example_losses :
  component_losses Example.runtime (Example.net 1 1 (1 # 100))
    [1 # 2; 1 # 4] Example.spatial Example.policy_target Example.wdl_target
    Example.moves_left_target
  = ({| TF.value := -1856 # 3716; TF.grad := [1; 0] |},
     {| TF.value := -1 # 6; TF.grad := [1; 0] |},
     {| TF.value := 30; TF.grad := [0; 0] |}).
Proof. vm_compute. reflexivity. Qed.



(** With all weights 0 the example's optimizer is handed two vanishing
    gradients in full precision. *)
Lemma zero_weights_give_zero_gradients_example :
  exists before reported total gradients w',
    run Example.runtime
        (LeelaZeroNet.train_step (Example.net 0 0 0)
           (Example.planes, Example.policy_target, Example.wdl_target,
            Example.moves_left_target))
        (Example.world "float32" 1)
    = (before ++ [Called (ApplyGradients (zip gradients [0; 1]%nat))],
       Ok (reported, w'))
    /\ List.filter is_update before = []
    /\ reported !! "loss" = Some total
    /\ TF.value total == 0
    /\ Forall (fun q => q == 0) (TF.grad total)
    /\ (gradients = tape_gradient total [0; 1]%nat
        /\ length gradients = 2%nat
        /\ Forall is_zero gradients)
    /\ (optimizer_state w', variables w')
       = apply_gradients Example.runtime 1 (zip gradients [0; 1]%nat)
                         [1 # 2; 1 # 4].
Proof.
  apply (zero_weights_give_zero_gradients Example.runtime 4 2 8 true
           Example.planes Example.policy_target Example.wdl_target
           Example.moves_left_target Example.spatial
           (Example.world "float32" 1) example_reshape).
Defined.

(** The claim of C7 fails with an optimizer in motion: all weights are 0,
    the total loss is 0 and so are both gradients, and the momentum moves
    both variables. *)
Lemma zero_weights_can_move_parameters :
  let w := Optimizers.in_motion "float32" in
  exists log reported total w',
    run Optimizers.momentum
        (LeelaZeroNet.train_step (Example.net 0 0 0)
           (Example.planes, Example.policy_target, Example.wdl_target,
            Example.moves_left_target)) w
    = (log, Ok (reported, w'))
    /\ reported !! "loss" = Some total
    /\ TF.value total == 0
    /\ last log
       = Some (Called (ApplyGradients
                         [(TF.Finite 0, 0%nat); (TF.Finite 0, 1%nat)]))
    /\ variables w = [1 # 2; 1 # 4]
    /\ Forall2 Qeq (variables w') [41 # 100; 16 # 100]
    /\ ~ Forall2 Qeq (variables w') (variables w).
Proof.
  vm_compute. eexists _, _, _, _. split; [reflexivity |].
  split; [reflexivity |]. split; [reflexivity |].
  split; [reflexivity |]. split; [reflexivity |]. split.
  - repeat constructor.
  - intros H. inversion H as [| ? ? ? ? Hq _]. discriminate Hq.
Qed.

(** The moves-left output of the example is clamped; its value output is
    not. *)
Lemma moves_left_is_clamped_example :
  layer_call Example.runtime = Layers.call Example.kernel
  /\ exists log policy_out value_out moves_left_out,
       run Example.runtime
           (LeelaZeroNet.call (Example.net 1 1 (1 # 100)) Example.planes)
           (Example.world "float32" 1)
       = (log, Ok ((policy_out, value_out, moves_left_out),
                   Example.world "float32" 1))
       /\ TF.shape moves_left_out = [2; 1]%nat
       /\ Forall (fun s => 0 <= TF.value s) (TF.data moves_left_out)
       /\ TF.shape value_out = [2; 3]%nat.
Proof.
  split; [reflexivity |].
  pose proof (moves_left_is_clamped Example.runtime Example.kernel eq_refl
                4 2 8 true 1 1 (1 # 100) Example.planes
                (Example.world "float32" 1)) as H.
  cbv zeta in H. rewrite example_reshape in H.
  destruct H as (log & p & v & m & Hrun & _ & Hshape & _ & Hpos & _ & Hv & _).
  exists log, p, v, m. repeat split; assumption.
Defined.

(** The example network without residual blocks. *)
Lemma no_residual_blocks_example :
  layer_call Example.runtime = Layers.call Example.kernel
  /\ exists log policy_out value_out moves_left_out,
       run Example.runtime
           (LeelaZeroNet.call (LeelaZeroNet.init 4 0 8 true 1 1 (1 # 100))
                              Example.planes)
           (Example.world "float32" 1)
       = (log, Ok ((policy_out, value_out, moves_left_out),
                   Example.world "float32" 1))
       /\ length (omap called_layer log) = 5%nat
       /\ TF.shape policy_out = [2; 1858]%nat
       /\ TF.shape value_out = [2; 3]%nat
       /\ TF.shape moves_left_out = [2; 1]%nat.
Proof.
  split; [reflexivity |].
  pose proof (no_residual_blocks Example.runtime Example.kernel eq_refl
                4 8 true 1 1 (1 # 100) Example.planes
                (Example.world "float32" 1)) as H.
  cbv zeta in H. destruct H as [_ H]. rewrite example_reshape in H.
  destruct H as (log & p & v & m & Hrun & Hlog & _ & _ & _ & _
                 & Hp & _ & Hv & _ & Hm & _).
  exists log, p, v, m.
  split; [exact Hrun |].
  split; [rewrite Hlog; reflexivity |].
  repeat split; assumption.
Defined.

(** The step count of three small files with batches of two. *)
Lemma steps_per_epoch_example :
  Train.steps_per_epoch Example.game_files 2
  = Ok (Train.steps_formula Example.game_files 2)
  /\ Train.steps_formula Example.game_files 2 = 2%Z.
Proof.
  split; [| vm_compute; reflexivity].
  apply (steps_per_epoch_is_halved_sum Example.game_files 2); [lia |].
  repeat first [apply Forall_nil_2 | apply Forall_cons_2];
    intros v Hv; vm_compute in Hv;
    first [ discriminate Hv
          | injection Hv as <-; eexists; reflexivity ].
Defined.

(** The default schedule, reduced every ten epochs, at epoch 25. *)
Lemma schedule_example :
  let schedule :=
    Train.get_schedule_function (3 # 10000) 10 3 (1 # 200000) in
  exists lr,
    schedule 25%Z = Ok (Py.Finite lr)
    /\ lr == Train.schedule_formula (3 # 10000) 10 3 (1 # 200000) 25
    /\ 1 # 200000 <= lr
    /\ ((1 <= 3)%Z -> 0 <= 3 # 10000 ->
        forall earlier, (0 <= earlier <= 25)%Z ->
          exists lr', schedule earlier = Ok (Py.Finite lr') /\ lr <= lr').
Proof.
  apply (schedule_is_floored_decay (3 # 10000) 10 3 (1 # 200000) 25);
    [lia | lia | lia | vm_compute; reflexivity].
Defined.

(** C10 as stated fails, once for each condition the amended claim adds.
    With a factor of 3 >= 1 the rate rises from epoch 0 to epoch 1 when the
    starting rate is negative, and also when the period is negative.  The
    schedule returns nothing when the period is 0, when the factor is 0
    and a reduction is due, when a negative period makes the power
    underflow, and when the power no longer converts to a float: with the
    script's defaults and a period of 10 that is epoch 6470, with a factor
    of 10000 and a period of 1 it is epoch 78. *)
Lemma schedule_can_increase :
  (exists lr0 lr1,
     Train.get_schedule_function (-9) 1 3 (-100) 0 = Ok (Py.Finite lr0)
     /\ Train.get_schedule_function (-9) 1 3 (-100) 1 = Ok (Py.Finite lr1)
     /\ ~ lr1 <= lr0)
  /\ (exists lr0 lr1,
        Train.get_schedule_function 1 (-1) 3 0 0 = Ok (Py.Finite lr0)
        /\ Train.get_schedule_function 1 (-1) 3 0 1 = Ok (Py.Finite lr1)
        /\ ~ lr1 <= lr0)
  /\ Train.get_schedule_function (3 # 10000) 0 3 (5 # 1000000) 0
     = Raise ZeroDivisionError
  /\ Train.get_schedule_function (3 # 10000) 1 0 (5 # 1000000) 1
     = Raise ZeroDivisionError
  /\ Train.get_schedule_function (3 # 10000) (-1) 2 (5 # 1000000) 1080
     = Raise ZeroDivisionError
  /\ Train.get_schedule_function (3 # 10000) 10 3 (5 # 1000000) 6470
     = Raise OverflowError
  /\ Train.get_schedule_function (3 # 10000) 1 10000 (5 # 1000000) 78
     = Raise OverflowError.
Proof.
  split.
  { exists (-9), (-9 # 3). split; [vm_compute; reflexivity |].
    split; [vm_compute; reflexivity |].
    intros H. unfold Qle in H. simpl in H. lia. }
  split.
  { eexists _, _. split; [vm_compute; reflexivity |].
    split; [vm_compute; reflexivity |].
    intros H. unfold Qle in H. simpl in H. lia. }
  repeat split; vm_compute; reflexivity.
Qed.

(** A full-precision step on the example moves the first variable from
    1/2 to 3/10 and reports the four scalars. *)
Example full_precision_step :
  match (run Example.runtime
             (LeelaZeroNet.train_step (Example.net 1 1 (1 # 100))
                (Example.planes, Example.policy_target, Example.wdl_target,
                 Example.moves_left_target))
             (Example.world "float32" 1)).2 with
  | Ok (reported, w') =>
      variables w' = [600 # 2000; 1 # 4]
      /\ size reported = 4%nat
      /\ TF.grad <$> reported !! "loss" = Some [2.00; 0.00]
  | Raise _ => False
  end.
Proof. vm_compute. repeat split. Qed.

(** With a loss scale that stays in range, the reduced-precision step makes
    the same update. *)
Example reduced_precision_step :
  match (run Example.runtime
             (LeelaZeroNet.train_step (Example.net 1 1 (1 # 100))
                (Example.planes, Example.policy_target, Example.wdl_target,
                 Example.moves_left_target))
             (Example.world "mixed_float16" 128)).2 with
  | Ok (_, w') => Forall2 Qeq (variables w') [3 # 10; 1 # 4]
  | Raise _ => False
  end.
Proof. vm_compute. repeat constructor. Qed.

(** The example's value output has a negative entry, its moves-left output
    has none. *)
Example value_output_is_free :
  match (run Example.runtime
             (LeelaZeroNet.call (Example.net 1 1 1) Example.planes)
             (Example.world "float32" 1)).2 with
  | Ok ((_, value_out, moves_left_out), _) =>
      (TF.value <$> TF.data value_out)
      = [-1 # 2; 1 # 2; 3 # 2; 1 # 2; 3 # 2; 5 # 2]
      /\ (TF.value <$> TF.data moves_left_out) = [0; 1 # 2]
  | Raise _ => False
  end.
Proof. vm_compute. split; reflexivity. Qed.

(** An input of the wrong size is refused before any layer of the network
    runs. *)
Example wrong_size_is_refused :
  run Example.runtime
      (LeelaZeroNet.call (Example.net 1 1 1) Example.wdl_target)
      (Example.world "float32" 1)
  = ([Called (CallLayer
                (LeelaZeroNet.input_reshape (Example.net 1 1 1))
                Example.wdl_target)],
     Raise ValueError).
Proof. vm_compute. reflexivity. Qed.

(** ** More on the learning-rate schedule *)

Section ScheduleEdges.

Lemma inject_Z_zero (z : Z) : inject_Z z == 0 <-> z = 0%Z.
Proof. unfold Qeq. simpl. lia. Qed.

(** X1: the outcome of the schedule for an epoch >= 0 and a period >= 0,
    case by case.  It raises ZeroDivisionError exactly when the period is
    0, or the factor is 0 and at least one reduction is due; it raises
    OverflowError exactly when the period is not 0 and
    factor^(epoch // period) has a magnitude of 2^1024 - 2^970 or more, too
    large to convert to a float; in every other case it returns a finite
    rate. *)
Theorem schedule_outcome
    (starting_lr : Q) (reduce_lr_every_n_epochs reduce_lr_factor : Z)
    (min_learning_rate : Q) (epoch : Z) :
  (0 <= epoch)%Z ->
  (0 <= reduce_lr_every_n_epochs)%Z ->
  let reductions := (epoch / reduce_lr_every_n_epochs)%Z in
  match Train.get_schedule_function starting_lr reduce_lr_every_n_epochs
          reduce_lr_factor min_learning_rate epoch with
  | Ok lr =>
      reduce_lr_every_n_epochs <> 0%Z
      /\ (reduce_lr_factor <> 0%Z \/ reductions = 0%Z)
      /\ (Z.abs (reduce_lr_factor ^ reductions) < Py.float_limit)%Z
      /\ exists rate, lr = Py.Finite rate
  | Raise e =>
      (e = ZeroDivisionError
       /\ (reduce_lr_every_n_epochs = 0%Z
           \/ (reduce_lr_factor = 0%Z /\ reductions <> 0%Z)))
      \/ (e = OverflowError
          /\ reduce_lr_every_n_epochs <> 0%Z
          /\ (Py.float_limit <= Z.abs (reduce_lr_factor ^ reductions))%Z)
  end.
Proof.
  intros Hepoch Hevery reductions.
  unfold Train.get_schedule_function.
  destruct (Z.eq_dec reduce_lr_every_n_epochs 0%Z) as [Hn | Hn].
  { subst. unfold Train.scheduler, Py.floordiv. simpl. left. auto. }
  assert (Hk : (0 <= reductions)%Z) by (apply Z.div_pos; lia).
  destruct (Z.le_gt_cases Py.float_limit
              (Z.abs (reduce_lr_factor ^ reductions))) as [Hbig | Hsmall].
  { rewrite scheduler_overflow by assumption. right. auto. }
  rewrite scheduler_by_power by assumption. fold reductions.
  unfold Py.truediv_by.
  rewrite float_of_int_in_range by (apply Z.gt_lt, Z.lt_gt; exact Hsmall).
  change (Ok ?y ≫= ?f) with (f y). cbv beta.
  destruct (Qeq_bool (inject_Z (reduce_lr_factor ^ reductions)) 0) eqn:Hz.
  - pose proof (proj1 (inject_Z_zero _) (proj1 (Qeq_bool_iff _ _) Hz)) as H0.
    apply Z.pow_eq_0_iff in H0. left. split; [reflexivity |]. right. lia.
  - apply Qeq_bool_neq in Hz.
    change (Ok ?y ≫= ?f) with (f y). cbv beta.
    split; [exact Hn |]. split; [| split; [lia | eauto]].
    destruct (Z.eq_dec reductions 0%Z) as [Hk0 | Hk0]; [right; exact Hk0 |].
    left. intros Hf. apply Hz. apply (proj2 (inject_Z_zero _)).
    apply Z.pow_eq_0_iff. lia.
Qed.

Lemma scheduler_first_period (starting_lr : Q) (every factor : Z)
    (min_lr : Q) (epoch : Z) :
  (0 <= epoch < every)%Z ->
  Train.scheduler starting_lr every factor min_lr epoch
  = Ok (Py.Finite (Py.max min_lr (starting_lr / inject_Z 1))).
Proof.
  intros Hepoch.
  assert (Hk : (epoch / every)%Z = 0%Z) by (apply Z.div_small; exact Hepoch).
  rewrite scheduler_by_power by lia. rewrite Hk, Z.pow_0_r.
  assert (Hone : Py.truediv_by starting_lr (Py.Int 1)
                 = Ok (Py.Finite (starting_lr / inject_Z 1)))
    by (vm_compute; reflexivity).
  rewrite Hone. reflexivity.
Qed.

(** X2: before the first reduction is due (0 <= epoch < period) the
    schedule returns max(min_learning_rate, starting_lr) whatever the
    factor is, 0 included; so it starts from the starting rate whenever
    that is not below the minimum. *)
Theorem schedule_starts_at_starting_lr
    (starting_lr : Q) (reduce_lr_every_n_epochs reduce_lr_factor : Z)
    (min_learning_rate : Q) (epoch : Z) :
  (0 <= epoch < reduce_lr_every_n_epochs)%Z ->
  exists lr,
    Train.get_schedule_function starting_lr reduce_lr_every_n_epochs
      reduce_lr_factor min_learning_rate epoch = Ok (Py.Finite lr)
    /\ lr == Qmax min_learning_rate starting_lr
    /\ (min_learning_rate <= starting_lr -> lr == starting_lr).
Proof.
  intros Hepoch.
  unfold Train.get_schedule_function.
  rewrite scheduler_first_period by exact Hepoch.
  eexists. split; [reflexivity |].
  assert (Hmax : Py.max min_learning_rate (starting_lr / inject_Z 1)
                 == Qmax min_learning_rate starting_lr).
  { rewrite py_max_is_max.
    assert (E : starting_lr / inject_Z 1 == starting_lr) by field.
    rewrite E. reflexivity. }
  split; [exact Hmax |].
  intros Hle. rewrite Hmax. apply Q.max_r, Hle.
Qed.


End ScheduleEdges.

(** ** More on the step count *)

Section StepCountEdges.

Lemma count_game_cases (moves : Q) (game : gmap string Train.json) :
  (Train.tcn_sized game
   /\ exists m, Train.count_game moves game = Ok m
                /\ m == moves + Train.half_moves game)
  \/ (~ Train.tcn_sized game
      /\ Train.count_game moves game = Raise TypeError).
Proof.
  destruct (game !! "tcn") as [tcn |] eqn:Htcn.
  - destruct (Train.len tcn) as [n | e] eqn:Hlen.
    + left.
      assert (Hs : Train.tcn_sized game).
      { intros v Hv. rewrite Htcn in Hv. injection Hv as <-. eauto. }
      split; [exact Hs | apply count_game_sum, Hs].
    + right. split.
      * intros Hs. destruct (Hs tcn Htcn) as [n Hn]. congruence.
      * unfold Train.count_game. rewrite Htcn, Hlen. simpl.
        destruct tcn; simpl in Hlen; congruence.
  - left.
    assert (Hs : Train.tcn_sized game).
    { intros v Hv. congruence. }
    split; [exact Hs | apply count_game_sum, Hs].
Qed.

Lemma count_games_cases (moves : Q) (games : list (gmap string Train.json)) :
  (Forall Train.tcn_sized games
   /\ exists m, Train.count_games moves games = Ok m
                /\ m == moves + Train.Qsum (Train.half_moves <$> games))
  \/ (~ Forall Train.tcn_sized games
      /\ Train.count_games moves games = Raise TypeError).
Proof.
  revert moves. induction games as [| game rest IH]; intros moves.
  - left. split; [constructor | apply count_games_sum; constructor].
  - destruct (count_game_cases moves game) as [[Hg (m1 & E1 & Hm1)] | [Hg E1]].
    + destruct (IH m1) as [[Hr _] | [Hr E]].
      * left. assert (Hall : Forall Train.tcn_sized (game :: rest))
          by (constructor; assumption).
        split; [exact Hall | apply count_games_sum, Hall].
      * right. split.
        -- intros Hall. apply Hr. inversion Hall; assumption.
        -- cbn [Train.count_games]. rewrite E1. exact E.
    + right. split.
      * intros Hall. apply Hg. inversion Hall; assumption.
      * cbn [Train.count_games]. rewrite E1. reflexivity.
Qed.

Lemma count_files_cases (moves : Q)
    (files : list (list (gmap string Train.json))) :
  (Forall (Forall Train.tcn_sized) files
   /\ exists m, Train.count_files moves files = Ok m
                /\ m == moves + counted_moves files)
  \/ (~ Forall (Forall Train.tcn_sized) files
      /\ Train.count_files moves files = Raise TypeError).
Proof.
  revert moves. induction files as [| games rest IH]; intros moves.
  - left. split; [constructor | apply count_files_sum; constructor].
  - destruct (count_games_cases moves games)
      as [[Hg (m1 & E1 & Hm1)] | [Hg E1]].
    + destruct (IH m1) as [[Hr _] | [Hr E]].
      * left. assert (Hall : Forall (Forall Train.tcn_sized) (games :: rest))
          by (constructor; assumption).
        split; [exact Hall | apply count_files_sum, Hall].
      * right. split.
        -- intros Hall. apply Hr. inversion Hall; assumption.
        -- cbn [Train.count_files]. rewrite E1. exact E.
    + right. split.
      * intros Hall. apply Hg. inversion Hall; assumption.
      * cbn [Train.count_files]. rewrite E1. reflexivity.
Qed.

Lemma counted_moves_non_negative
    (files : list (list (gmap string Train.json))) :
  0 <= counted_moves files.
Proof.
  apply Qsum_non_negative, Forall_fmap, Forall_forall.
  intros game _. apply half_moves_non_negative.
Qed.

Lemma int_by_sign (q : Q) :
  Py.int q = if Qle_bool 0 q then Qfloor q else (- Qfloor (- q))%Z.
Proof.
  destruct q as [n d]. unfold Py.int, Qle_bool, Qfloor.
  cbn [Qnum Qden Qopp]. rewrite Z.mul_0_l, Z.mul_1_r.
  destruct (Z.leb_spec 0 n) as [Hn | Hn].
  - apply Z.quot_div_nonneg; lia.
  - rewrite <- (Z.opp_involutive n) at 1.
    rewrite Z.quot_opp_l by lia. f_equal.
    apply Z.quot_div_nonneg; lia.
Qed.

Lemma int_compat (q r : Q) : q == r -> Py.int q = Py.int r.
Proof.
  intros Hqr. rewrite !int_by_sign.
  assert (Hsign : Qle_bool 0 q = Qle_bool 0 r).
  { destruct (Qle_bool 0 q) eqn:Hq, (Qle_bool 0 r) eqn:Hr; try reflexivity.
    - apply Qle_bool_iff in Hq. rewrite Hqr in Hq.
      apply Qle_bool_iff in Hq. congruence.
    - apply Qle_bool_iff in Hr. rewrite <- Hqr in Hr.
      apply Qle_bool_iff in Hr. congruence. }
  rewrite Hsign. destruct (Qle_bool 0 r); rewrite Hqr; reflexivity.
Qed.

Lemma Qsum_Permutation (l k : list Q) :
  l ≡ₚ k -> Train.Qsum l == Train.Qsum k.
Proof.
  induction 1 as [| x l k _ IH | x y l | l k m _ IH1 _ IH2].
  - reflexivity.
  - rewrite !Qsum_cons, IH. reflexivity.
  - rewrite !Qsum_cons. ring.
  - rewrite IH1. exact IH2.
Qed.

Lemma counted_moves_Permutation
    (files files' : list (list (gmap string Train.json))) :
  files ≡ₚ files' -> counted_moves files == counted_moves files'.
Proof.
  intros Hp. unfold counted_moves. apply Qsum_Permutation.
  apply fmap_Permutation.
  induction Hp as [| x l k _ IH | x y l | l k m _ IH1 _ IH2]; simpl.
  - reflexivity.
  - rewrite IH. reflexivity.
  - rewrite !app_assoc. apply Permutation_app_tail, Permutation_app_comm.
  - rewrite IH1. exact IH2.
Qed.

(** What the division of line 134 gives once the records are counted. *)
Lemma steps_after_count
    (files : list (list (gmap string Train.json))) (batch_size : Z) :
  Forall (Forall Train.tcn_sized) files ->
  Train.steps_per_epoch files batch_size
  = if (batch_size =? 0)%Z then Raise ZeroDivisionError
    else Ok (Py.int (counted_moves files / inject_Z batch_size)).
Proof.
  intros Hsized. unfold Train.steps_per_epoch.
  destruct (count_files_sum 0 files Hsized) as (moves & -> & Hmoves).
  rewrite Qplus_0_l in Hmoves. fold (counted_moves files) in Hmoves.
  simpl. unfold Py.truediv.
  destruct (batch_size =? 0)%Z eqn:Hb.
  - apply Z.eqb_eq in Hb. subst. reflexivity.
  - apply Z.eqb_neq in Hb.
    destruct (Qeq_bool (inject_Z batch_size) 0) eqn:Hz.
    + pose proof (proj1 (inject_Z_zero _) (proj1 (Qeq_bool_iff _ _) Hz)).
      lia.
    + simpl. f_equal. apply int_compat. rewrite Hmoves. reflexivity.
Qed.

(** X4: the step count does not depend on the order in which
    [glob.glob] lists the files: any permutation of the files gives the
    same result, the same error included. *)
Theorem steps_ignore_file_order
    (files files' : list (list (gmap string Train.json))) (batch_size : Z) :
  files ≡ₚ files' ->
  Train.steps_per_epoch files batch_size
  = Train.steps_per_epoch files' batch_size.
Proof.
  intros Hp.
  destruct (count_files_cases 0 files) as [[Hs _] | [Hs E]].
  - assert (Hs' : Forall (Forall Train.tcn_sized) files')
      by (rewrite <- Hp; exact Hs).
    rewrite !steps_after_count by assumption.
    destruct (batch_size =? 0)%Z; [reflexivity |].
    f_equal. apply int_compat.
    rewrite (counted_moves_Permutation files files' Hp). reflexivity.
  - destruct (count_files_cases 0 files') as [[Hs' _] | [_ E']].
    + exfalso. apply Hs. rewrite Hp. exact Hs'.
    + unfold Train.steps_per_epoch. rewrite E, E'. reflexivity.
Qed.

(** X5: the outcome of the step count, case by case.  A "tcn" field
    without a length (a number, a boolean, null) makes it fail with
    TypeError, whatever the batch size; otherwise a batch size of 0 makes
    it fail with ZeroDivisionError; otherwise it returns. *)
Theorem steps_outcome
    (files : list (list (gmap string Train.json))) (batch_size : Z) :
  match Train.steps_per_epoch files batch_size with
  | Ok _ => Forall (Forall Train.tcn_sized) files /\ batch_size <> 0%Z
  | Raise e =>
      (e = TypeError /\ ~ Forall (Forall Train.tcn_sized) files)
      \/ (e = ZeroDivisionError
          /\ Forall (Forall Train.tcn_sized) files /\ batch_size = 0%Z)
  end.
Proof.
  destruct (count_files_cases 0 files) as [[Hs _] | [Hs E]].
  - rewrite steps_after_count by exact Hs.
    destruct (batch_size =? 0)%Z eqn:Hb.
    + apply Z.eqb_eq in Hb. right. auto.
    + apply Z.eqb_neq in Hb. auto.
  - unfold Train.steps_per_epoch. rewrite E. simpl. left. auto.
Qed.

(** X6: for a positive batch size and sized "tcn" fields, the returned
    count is the largest number of whole batches the counted moves fill:
    it is not negative, steps * batch_size <= moves, and
    moves < (steps + 1) * batch_size. *)
Theorem steps_fill_whole_batches
    (files : list (list (gmap string Train.json))) (batch_size : Z) :
  (0 < batch_size)%Z ->
  Forall (Forall Train.tcn_sized) files ->
  exists steps,
    Train.steps_per_epoch files batch_size = Ok steps
    /\ (0 <= steps)%Z
    /\ inject_Z steps * inject_Z batch_size <= counted_moves files
    /\ counted_moves files < inject_Z (steps + 1) * inject_Z batch_size.
Proof.
  intros Hbatch Hsized. rewrite steps_after_count by exact Hsized.
  assert (Hb0 : (batch_size =? 0)%Z = false) by (apply Z.eqb_neq; lia).
  rewrite Hb0. eexists. split; [reflexivity |].
  assert (Hb : 0 < inject_Z batch_size).
  { change 0 with (inject_Z 0). rewrite <- Zlt_Qlt. exact Hbatch. }
  set (q := counted_moves files / inject_Z batch_size).
  assert (Hq : 0 <= q).
  { apply Qle_shift_div_l; [exact Hb |]. rewrite Qmult_0_l.
    apply counted_moves_non_negative. }
  assert (E : q * inject_Z batch_size == counted_moves files).
  { unfold q. field. intros H. rewrite H in Hb. apply (Qlt_irrefl 0 Hb). }
  rewrite int_is_floor by exact Hq.
  split; [| split].
  - assert (H0 : Qfloor 0 = 0%Z) by reflexivity.
    rewrite <- H0. apply Qfloor_resp_le, Hq.
  - rewrite <- E. apply Qmult_le_compat_r; [apply Qfloor_le |].
    apply Qlt_le_weak, Hb.
  - rewrite <- E. apply Qmult_lt_compat_r; [exact Hb | apply Qlt_floor].
Qed.

(** X7: records without a "tcn" field are ignored: dropping them from
    every file changes neither the count nor the error. *)
Theorem steps_ignore_records_without_tcn
    (files : list (list (gmap string Train.json))) (batch_size : Z) :
  Train.steps_per_epoch (List.filter has_tcn <$> files) batch_size
  = Train.steps_per_epoch files batch_size.
Proof.
  unfold Train.steps_per_epoch. f_equal.
  assert (Hgames : forall games moves,
             Train.count_games moves (List.filter has_tcn games)
             = Train.count_games moves games).
  { induction games as [| game rest IH]; intros moves; [reflexivity |].
    cbn [List.filter]. unfold has_tcn at 1.
    destruct (game !! "tcn") as [tcn |] eqn:Htcn.
    - cbn [Train.count_games].
      destruct (Train.count_game moves game) as [m | e]; [| reflexivity].
      apply IH.
    - rewrite IH. cbn [Train.count_games]. unfold Train.count_game.
      rewrite Htcn. reflexivity. }
  generalize 0 at 1 2. induction files as [| games rest IH]; intros moves.
  - reflexivity.
  - rewrite fmap_cons. cbn [Train.count_files]. rewrite Hgames.
    destruct (Train.count_games moves games) as [m | e]; [| reflexivity].
    apply IH.
Qed.

End StepCountEdges.

(** ** More on the forward pass and the step *)

Section StepEdges.

Context {ostate : Type} (rt : runtime ostate).

Lemma run_train_step_refused (self : LeelaZeroNet.t)
    (inputs policy_target wdl_target moves_left_target : TF.tensor)
    (ex : exception) (w : world ostate) :
  TF.reshape (Reshape.target_shape (LeelaZeroNet.input_reshape self)) inputs
    = Raise ex ->
  run rt (LeelaZeroNet.train_step self
            (inputs, policy_target, wdl_target, moves_left_target)) w
  = ([Called (CallLayer (LeelaZeroNet.input_reshape self) inputs)], Raise ex).
Proof.
  intros Hre. unfold LeelaZeroNet.train_step, mbind, prog_bind.
  rewrite run_bind, (run_call_raise rt self inputs ex w Hre). reflexivity.
Qed.

(** X8: when the reshape of the input raises, the step raises the same
    exception and the reshape request is the only one it made: no other
    layer ran, no loss was computed, nothing was differentiated and the
    optimizer was not asked for anything, so the variables were not
    touched. *)
Theorem train_step_stops_at_refused_input
    (self : LeelaZeroNet.t)
    (inputs policy_target wdl_target moves_left_target : TF.tensor)
    (ex : exception) (w : world ostate) :
  TF.reshape (Reshape.target_shape (LeelaZeroNet.input_reshape self)) inputs
    = Raise ex ->
  run rt (LeelaZeroNet.train_step self
            (inputs, policy_target, wdl_target, moves_left_target)) w
  = ([Called (CallLayer (LeelaZeroNet.input_reshape self) inputs)], Raise ex).
Proof.
  intros Hre. unfold LeelaZeroNet.train_step, mbind, prog_bind.
  rewrite run_bind, (run_call_raise rt self inputs ex w Hre). reflexivity.
Qed.

Lemma tower_log_only_layers (vars : list Q) (blocks : list ResidualBlock.t)
    (flow : TF.tensor) :
  forallb is_layer_call (tower_log rt vars blocks flow) = true.
Proof.
  revert flow. induction blocks as [| b rest IH]; intros flow; simpl.
  - reflexivity.
  - apply IH.
Qed.

(** X9: the forward pass asks for layer calls and for nothing else: no
    loss, no precision policy, no gradient and no optimizer request is in
    its log, for any network, any input and any state, whether the input
    is accepted or not. *)
Theorem forward_pass_only_calls_layers
    (self : LeelaZeroNet.t) (inputs : TF.tensor) (w : world ostate) :
  forallb is_layer_call (run rt (LeelaZeroNet.call self inputs) w).1 = true.
Proof.
  destruct (TF.reshape
              (Reshape.target_shape (LeelaZeroNet.input_reshape self)) inputs)
    as [spatial | ex] eqn:Hre.
  - rewrite (run_call rt self inputs spatial w Hre).
    cbn [fst]. unfold forward_log.
    rewrite !forallb_app, tower_log_only_layers. reflexivity.
  - rewrite (run_call_raise rt self inputs ex w Hre). reflexivity.
Qed.

(** X10: the network takes its input flat or already spatial: an input
    the reshape turns into [spatial] and [spatial] itself give the same
    three outputs. *)
Theorem flat_and_spatial_inputs_agree
    (self : LeelaZeroNet.t) (inputs spatial : TF.tensor) (w : world ostate) :
  TF.reshape (Reshape.target_shape (LeelaZeroNet.input_reshape self)) inputs
    = Ok spatial ->
  (run rt (LeelaZeroNet.call self spatial) w).2
  = (run rt (LeelaZeroNet.call self inputs) w).2
  /\ exists outputs,
       (run rt (LeelaZeroNet.call self inputs) w).2 = Ok (outputs, w).
Proof.
  intros Hre.
  assert (Hre' : TF.reshape
                   (Reshape.target_shape (LeelaZeroNet.input_reshape self))
                   spatial = Ok spatial).
  { revert Hre. unfold TF.reshape.
    destruct (TF.shape inputs) as [| b rest]; [discriminate |].
    case_decide; [| discriminate]. intros [= <-]. simpl.
    rewrite decide_True by reflexivity. reflexivity. }
  rewrite (run_call rt self inputs spatial w Hre).
  rewrite (run_call rt self spatial spatial w Hre').
  split; [reflexivity | eexists; reflexivity].
Qed.

Lemma nth_scale_in_range (c : Q) (g : list Q) (i : nat) :
  (i < length g)%nat -> nth i (Qmult c <$> g) 0 = c * nth i g 0.
Proof.
  revert i. induction g as [| q g IH]; intros i Hi; simpl in *; [lia |].
  destruct i as [| i]; [reflexivity |]. apply IH. lia.
Qed.

Lemma nth_add_in_range (g h : list Q) (i : nat) :
  (i < length g)%nat -> (i < length h)%nat ->
  nth i (zip_with Qplus g h) 0 = nth i g 0 + nth i h 0.
Proof.
  revert h i. induction g as [| q g IH]; intros h i Hg Hh; simpl in *;
    [lia |].
  destruct h as [| r h]; simpl in *; [lia |].
  destruct i as [| i]; [reflexivity |]. apply IH; lia.
Qed.

Lemma zip_fmap_self {A B : Type} (f : A -> B) (l : list A) :
  zip (f <$> l) l = (fun a => (f a, a)) <$> l.
Proof.
  induction l as [| a l IH]; [reflexivity |]. cbn. f_equal. exact IH.
Qed.

(** X11: in full precision, when each loss has one partial derivative per
    trainable variable, the step ends by handing the optimizer exactly one
    gradient per variable, paired with that variable, and the gradient of
    variable i is w_p * dp/di + w_v * dv/di + w_m * dml/di.  So a head with
    weight 0 contributes nothing to any gradient. *)
Theorem full_precision_gradient_is_weighted_sum
    (self : LeelaZeroNet.t)
    (inputs policy_target wdl_target moves_left_target spatial : TF.tensor)
    (w : world ostate) :
  TF.reshape (Reshape.target_shape (LeelaZeroNet.input_reshape self)) inputs
    = Ok spatial ->
  String.eqb (global_policy w) "mixed_float16" = false ->
  let '(p, v, ml) :=
    component_losses rt self (variables w) spatial policy_target wdl_target
                     moves_left_target in
  let n := length (variables w) in
  length (TF.grad p) = n ->
  length (TF.grad v) = n ->
  length (TF.grad ml) = n ->
  exists log outcome,
    run rt (LeelaZeroNet.train_step self
              (inputs, policy_target, wdl_target, moves_left_target)) w
    = (log
       ++ [Called
             (ApplyGradients
                ((fun i : var =>
                    (TF.Finite
                       (LeelaZeroNet.policy_loss_weight self
                          * nth i (TF.grad p) 0
                        + LeelaZeroNet.value_loss_weight self
                          * nth i (TF.grad v) 0
                        + LeelaZeroNet.moves_left_loss_weight self
                          * nth i (TF.grad ml) 0), i))
                   <$> seq 0 n))],
       Ok outcome).
Proof.
  intros Hre Hmode.
  destruct (component_losses rt self (variables w) spatial policy_target
              wdl_target moves_left_target) as [[p v] ml] eqn:Hl.
  intros n Hp Hv Hml.
  pose proof (run_train_step rt self inputs policy_target wdl_target
                moves_left_target spatial w Hre p v ml Hl) as Hrun.
  cbv zeta in Hrun. fold n in Hrun.
  unfold gradients_log, step_gradients, update_log in Hrun.
  rewrite Hmode in Hrun. unfold direct_path, tape_gradient in Hrun.
  fold n in Hrun. rewrite zip_fmap_self in Hrun.
  set (total := weighted_total (LeelaZeroNet.policy_loss_weight self)
                  (LeelaZeroNet.value_loss_weight self)
                  (LeelaZeroNet.moves_left_loss_weight self) p v ml) in *.
  assert (Hgv :
    (fun a : var => (TF.Finite (nth a (TF.grad total) 0), a)) <$> seq 0 n
    = (fun i : var =>
         (TF.Finite
            (LeelaZeroNet.policy_loss_weight self * nth i (TF.grad p) 0
             + LeelaZeroNet.value_loss_weight self * nth i (TF.grad v) 0
             + LeelaZeroNet.moves_left_loss_weight self
               * nth i (TF.grad ml) 0), i)) <$> seq 0 n).
  { apply map_ext_in. intros i Hi. apply in_seq in Hi.
    f_equal. f_equal. unfold total, weighted_total. simpl.
    rewrite !nth_add_in_range, !nth_scale_in_range;
      rewrite ?length_zip_with, ?length_fmap; try lia.
    reflexivity. }
  rewrite Hgv in Hrun.
  exists (forward_log rt self (variables w) inputs spatial
          ++ losses_log rt self (variables w) spatial policy_target
                        wdl_target moves_left_target
          ++ [Called GlobalPolicyName]
          ++ direct_path_log total (seq 0 n)
          ++ [Called TrainableVariables]).
  eexists. rewrite Hrun. f_equal. rewrite <- !app_assoc. reflexivity.
Qed.



End StepEdges.

Section Reports.

Context {ostate1 ostate2 : Type}.
Context (rt1 : runtime ostate1) (rt2 : runtime ostate2).

(** X13: what a step reports does not depend on the optimizer, on its
    state or on the precision policy: two runs with the same layers, the
    same losses and the same values of the variables report the same four
    scalars, or fail alike. *)
Theorem reported_losses_ignore_optimizer
    (self : LeelaZeroNet.t)
    (batch : TF.tensor * TF.tensor * TF.tensor * TF.tensor)
    (w1 : world ostate1) (w2 : world ostate2) :
  layer_call rt1 = layer_call rt2 ->
  loss_call rt1 = loss_call rt2 ->
  variables w1 = variables w2 ->
  match (run rt1 (LeelaZeroNet.train_step self batch) w1).2,
        (run rt2 (LeelaZeroNet.train_step self batch) w2).2 with
  | Ok (reported1, _), Ok (reported2, _) => reported1 = reported2
  | Raise e1, Raise e2 => e1 = e2
  | _, _ => False
  end.
Proof.
  intros Hlayers Hlosses Hvars.
  destruct batch as [[[inputs policy_target] wdl_target] moves_left_target].
  destruct (TF.reshape
              (Reshape.target_shape (LeelaZeroNet.input_reshape self))
              inputs) as [spatial | ex] eqn:Hre.
  - destruct (component_losses rt1 self (variables w1) spatial policy_target
                wdl_target moves_left_target) as [[p v] ml] eqn:Hl1.
    assert (Hl2 : component_losses rt2 self (variables w2) spatial
                    policy_target wdl_target moves_left_target = (p, v, ml)).
    { rewrite <- Hl1.
      unfold component_losses, heads, trunk, tower.
      rewrite Hlayers, Hlosses, Hvars. reflexivity. }
    rewrite (run_train_step rt1 self inputs policy_target wdl_target
               moves_left_target spatial w1 Hre p v ml Hl1).
    rewrite (run_train_step rt2 self inputs policy_target wdl_target
               moves_left_target spatial w2 Hre p v ml Hl2).
    reflexivity.
  - rewrite (run_train_step_refused rt1 self inputs policy_target wdl_target
               moves_left_target ex w1 Hre).
    rewrite (run_train_step_refused rt2 self inputs policy_target wdl_target
               moves_left_target ex w2 Hre).
    reflexivity.
Qed.

End Reports.

(** ** More on the construction *)

Section Construction.

(** X14: the residual blocks a constructor call creates are named
    residual_block_0, residual_block_1, ... in the order they are applied;
    the names are pairwise distinct and none is the input block's. *)
Theorem residual_block_names_are_distinct
    (num_filters num_residual_blocks se_ratio : nat) (constrain_norms : bool)
    (w_p w_v w_m : Q) :
  let self :=
    LeelaZeroNet.init num_filters num_residual_blocks se_ratio
                      constrain_norms w_p w_v w_m in
  let names := ResidualBlock.name <$> LeelaZeroNet.residual_blocks self in
  NoDup names
  /\ (ConvBlock.name (LeelaZeroNet.input_block self) ∉ names)
  /\ forall i, (i < num_residual_blocks)%nat ->
       names !! i = Some ("residual_block_" +:+ pretty i).
Proof.
  intros self names.
  assert (Hnames : names
                   = ((fun i : nat => "residual_block_" +:+ pretty i)
                        <$> seq 0 num_residual_blocks)).
  { unfold names, self. simpl. rewrite <- list_fmap_compose. reflexivity. }
  rewrite Hnames. split; [| split].
  - apply NoDup_fmap_2; [| apply NoDup_seq].
    intros i j Hij. apply (inj (String.app "residual_block_")) in Hij.
    apply (inj pretty) in Hij. exact Hij.
  - intros Hin. apply list_elem_of_fmap in Hin as (i & Hi & _).
    simpl in Hi. discriminate Hi.
  - intros i Hi. rewrite list_lookup_fmap, lookup_seq_lt by exact Hi.
    reflexivity.
Qed.

End Construction.

(** ** The start of the script *)

Section ScriptStart.

(** X15: the script pairs the precision policy with the optimizer.  When
    the policy was not already "mixed_float16", the optimizer it builds has
    the loss-scaling methods exactly when the policy it leaves behind is
    "mixed_float16", the test [train_step] branches on; its learning rate
    and clipping norm are the configured ones for Adam and Lion alike; and
    the only failure is asking for Lion without [lion_tf]. *)
Theorem script_pairs_policy_with_optimizer
    (a : Script.args) (lion_installed : bool) (before : string) :
  before <> "mixed_float16" ->
  match Script.make_optimizer a lion_installed with
  | Some o =>
      Script.scales_losses o
      = String.eqb (Script.policy_after a before) "mixed_float16"
      /\ Script.initial_rate o = Script.learning_rate a
      /\ Script.clip_norm o = Script.max_grad_norm a
  | None => Script.optimizer a = Script.lion /\ lion_installed = false
  end.
Proof.
  intros Hbefore. apply String.eqb_neq in Hbefore.
  unfold Script.make_optimizer, Script.policy_after.
  destruct (Script.optimizer a), lion_installed,
    (Script.mixed_precision a); simpl; rewrite ?Hbefore; auto.
Qed.

(** X16: when a reduction period of at least 1 is configured and the
    learning rate is not below the minimum, the first callback is the
    scheduler and, for every epoch before the first reduction, it returns
    the rate the optimizer was built with. *)
Theorem script_schedule_starts_at_optimizer_rate
    (a : Script.args) (lion_installed : bool) (o : Script.optimizer_object)
    (period : Z) :
  Script.reduce_lr_every_n_epochs a = Some period ->
  (1 <= period)%Z ->
  Script.min_learning_rate a <= Script.learning_rate a ->
  Script.make_optimizer a lion_installed = Some o ->
  exists schedule rest,
    Script.callbacks a = Script.LearningRateScheduler schedule 1 :: rest
    /\ forall epoch, (0 <= epoch < period)%Z ->
         exists lr,
           schedule epoch = Ok (Py.Finite lr)
           /\ lr == Script.initial_rate o.
Proof.
  intros Hperiod Hpos Hmin Hopt.
  assert (Hrate : Script.initial_rate o = Script.learning_rate a).
  { revert Hopt. unfold Script.make_optimizer.
    destruct (Script.optimizer a), lion_installed,
      (Script.mixed_precision a); simpl; intros [= <-]; reflexivity. }
  exists (Train.get_schedule_function (Script.learning_rate a) period
            (Script.reduce_lr_factor a) (Script.min_learning_rate a)).
  exists (tail (Script.callbacks a)). split.
  { unfold Script.callbacks. rewrite Hperiod.
    destruct (Script.save_dir a), (Script.tensorboard_dir a); reflexivity. }
  intros epoch Hepoch.
  unfold Train.get_schedule_function.
  rewrite scheduler_first_period by exact Hepoch.
  eexists. split; [reflexivity |].
  rewrite py_max_is_max, Hrate.
  assert (E : Script.learning_rate a / inject_Z 1 == Script.learning_rate a)
    by field.
  rewrite E. apply Q.max_r, Hmin.
Qed.

End ScriptStart.

(** ** The further properties, run *)

Lemma schedule_outcome_example :
  match Train.get_schedule_function (3 # 10000) 10 3 (5 # 1000000) 6470 with
  | Ok lr =>
      10%Z <> 0%Z
      /\ (3%Z <> 0%Z \/ (6470 / 10)%Z = 0%Z)
      /\ (Z.abs (3 ^ (6470 / 10)) < Py.float_limit)%Z
      /\ exists rate, lr = Py.Finite rate
  | Raise e =>
      (e = ZeroDivisionError
       /\ (10%Z = 0%Z \/ (3%Z = 0%Z /\ (6470 / 10)%Z <> 0%Z)))
      \/ (e = OverflowError
          /\ 10%Z <> 0%Z
          /\ (Py.float_limit <= Z.abs (3 ^ (6470 / 10)))%Z)
  end.
Proof.
  apply (schedule_outcome (3 # 10000) 10 3 (5 # 1000000) 6470); lia.
Defined.

Lemma schedule_starts_at_starting_lr_example :
  exists lr,
    Train.get_schedule_function (3 # 10000) 10 0 (5 # 1000000) 7
    = Ok (Py.Finite lr)
    /\ lr == Qmax (5 # 1000000) (3 # 10000)
    /\ (5 # 1000000 <= 3 # 10000 -> lr == 3 # 10000).
Proof.
  apply (schedule_starts_at_starting_lr (3 # 10000) 10 0 (5 # 1000000) 7).
  lia.
Defined.


Lemma steps_ignore_file_order_example :
  Train.steps_per_epoch (reverse Example.game_files) 2
  = Train.steps_per_epoch Example.game_files 2.
Proof.
  apply (steps_ignore_file_order (reverse Example.game_files)
           Example.game_files 2).
  apply reverse_Permutation.
Defined.

Lemma steps_fill_whole_batches_example :
  exists steps,
    Train.steps_per_epoch Example.game_files 2 = Ok steps
    /\ (0 <= steps)%Z
    /\ inject_Z steps * inject_Z 2 <= counted_moves Example.game_files
    /\ counted_moves Example.game_files < inject_Z (steps + 1) * inject_Z 2.
Proof.
  apply (steps_fill_whole_batches Example.game_files 2); [lia |].
  repeat first [apply Forall_nil_2 | apply Forall_cons_2];
    intros v Hv; vm_compute in Hv;
    first [ discriminate Hv
          | injection Hv as <-; eexists; reflexivity ].
Defined.

Lemma train_step_stops_at_refused_input_example :
  run Example.runtime
      (LeelaZeroNet.train_step (Example.net 1 1 (1 # 100))
         (Example.wdl_target, Example.policy_target, Example.wdl_target,
          Example.moves_left_target))
      (Example.world "mixed_float16" 128)
  = ([Called (CallLayer
                (LeelaZeroNet.input_reshape (Example.net 1 1 (1 # 100)))
                Example.wdl_target)],
     Raise ValueError).
Proof.
  apply (train_step_stops_at_refused_input Example.runtime
           (Example.net 1 1 (1 # 100)) Example.wdl_target
           Example.policy_target Example.wdl_target
           Example.moves_left_target ValueError
           (Example.world "mixed_float16" 128)).
  vm_compute. reflexivity.
Defined.

Lemma flat_and_spatial_inputs_agree_example :
  (run Example.runtime
       (LeelaZeroNet.call (Example.net 1 1 1) Example.spatial)
       (Example.world "float32" 1)).2
  = (run Example.runtime
         (LeelaZeroNet.call (Example.net 1 1 1) Example.planes)
         (Example.world "float32" 1)).2
  /\ exists outputs,
       (run Example.runtime
            (LeelaZeroNet.call (Example.net 1 1 1) Example.planes)
            (Example.world "float32" 1)).2
       = Ok (outputs, Example.world "float32" 1).
Proof.
  apply (flat_and_spatial_inputs_agree Example.runtime (Example.net 1 1 1)
           Example.planes Example.spatial (Example.world "float32" 1)).
  vm_compute. reflexivity.
Defined.

Lemma full_precision_gradient_is_weighted_sum_example :
  exists log outcome,
    run Example.runtime
        (LeelaZeroNet.train_step (Example.net 1 1 (1 # 100))
           (Example.planes, Example.policy_target, Example.wdl_target,
            Example.moves_left_target))
        (Example.world "float32" 1)
    = (log
       ++ [Called
             (ApplyGradients
                [(TF.Finite (1 * 1 + 1 * 1 + (1 # 100) * 0), 0%nat);
                 (TF.Finite (1 * 0 + 1 * 0 + (1 # 100) * 0), 1%nat)])],
       Ok outcome).
Proof.
  pose proof (full_precision_gradient_is_weighted_sum Example.runtime
                (Example.net 1 1 (1 # 100)) Example.planes
                Example.policy_target Example.wdl_target
                Example.moves_left_target Example.spatial
                (Example.world "float32" 1) example_reshape eq_refl) as H.
  cbn [variables Example.world] in H. rewrite example_losses in H.
  apply H; reflexivity.
Defined.


Lemma reported_losses_ignore_optimizer_example :
  match (run Example.runtime
             (LeelaZeroNet.train_step (Example.net 1 1 (1 # 100))
                (Example.planes, Example.policy_target, Example.wdl_target,
                 Example.moves_left_target))
             (Example.world "float32" 1)).2,
        (run Example.runtime
             (LeelaZeroNet.train_step (Example.net 1 1 (1 # 100))
                (Example.planes, Example.policy_target, Example.wdl_target,
                 Example.moves_left_target))
             (Example.world "mixed_float16" 65536)).2 with
  | Ok (reported1, _), Ok (reported2, _) => reported1 = reported2
  | Raise e1, Raise e2 => e1 = e2
  | _, _ => False
  end.
Proof.
  apply (reported_losses_ignore_optimizer Example.runtime Example.runtime
           (Example.net 1 1 (1 # 100))
           (Example.planes, Example.policy_target, Example.wdl_target,
            Example.moves_left_target)
           (Example.world "float32" 1)
           (Example.world "mixed_float16" 65536));
    reflexivity.
Defined.

Lemma script_pairs_policy_with_optimizer_example :
  match Script.make_optimizer Cases.args true with
  | Some o =>
      Script.scales_losses o
      = String.eqb (Script.policy_after Cases.args "float32")
                   "mixed_float16"
      /\ Script.initial_rate o = Script.learning_rate Cases.args
      /\ Script.clip_norm o = Script.max_grad_norm Cases.args
  | None => Script.optimizer Cases.args = Script.lion /\ true = false
  end.
Proof.
  apply (script_pairs_policy_with_optimizer Cases.args true "float32").
  discriminate.
Defined.

Lemma script_schedule_starts_at_optimizer_rate_example :
  exists schedule rest,
    Script.callbacks Cases.args
    = Script.LearningRateScheduler schedule 1 :: rest
    /\ forall epoch, (0 <= epoch < 10)%Z ->
         exists lr,
           schedule epoch = Ok (Py.Finite lr)
           /\ lr == Script.initial_rate
                      (Script.LossScaleOptimizer
                         (Script.Lion (3 # 10000) (56 # 10))).
Proof.
  apply (script_schedule_starts_at_optimizer_rate Cases.args true
           (Script.LossScaleOptimizer (Script.Lion (3 # 10000) (56 # 10)))
           10).
  - reflexivity.
  - lia.
  - discriminate.
  - reflexivity.
Defined.
